(** * A shallow embedding of [java_type_checker/expressions.py]

    The module defines an AST for a few Java expression forms and, on each
    node class, the two methods [static_type] and [check_types].  Python
    exceptions are modelled by an error monad; the type universe of
    [types.py] (not part of this development) is an interface. *)

From Stdlib Require Import String Ascii List Arith Lia Bool DecimalString.
From stdpp Require Import gmap.
Import ListNotations.
Local Open Scope string_scope.
Local Open Scope list_scope.

(** ** Exceptions and the error monad *)

(** The exception classes that can leave [static_type] or [check_types].
    The first four derive from [JavaTypeError]; each carries its message. *)
Inductive PyException : Type :=
| NoSuchJavaMethod (msg : string)
| JavaTypeMismatchError (msg : string)
| JavaArgumentCountError (msg : string)
| JavaIllegalInstantiationError (msg : string)
| NotImplementedError (msg : string)
| AttributeError (msg : string)
| IndexError (msg : string).

(** [isinstance(e, JavaTypeError)] *)
Definition is_JavaTypeError (e : PyException) : bool :=
  match e with
  | NoSuchJavaMethod _ | JavaTypeMismatchError _
  | JavaArgumentCountError _ | JavaIllegalInstantiationError _ => true
  | NotImplementedError _ | AttributeError _ | IndexError _ => false
  end.

Inductive result (A : Type) : Type :=
| Ok (a : A)
| Raise (e : PyException).
Arguments Ok {A} a.
Arguments Raise {A} e.

#[global] Instance result_ret : MRet result := fun A a => Ok a.
#[global] Instance result_bind : MBind result := fun A B k r =>
  match r with
  | Ok a => k a
  | Raise e => Raise e
  end.

(** ** The type model ([types.py]) as an interface *)

(** A [JavaMethod]: the attributes read by [expressions.py]. *)
Record JavaMethod (T : Type) : Type := {
  parameter_types : list T;
  return_type : T
}.
Arguments parameter_types {T} _.
Arguments return_type {T} _.

(** What [expressions.py] uses of a [JavaType]: the attribute [name], the
    predicate [is_subtype_of], and [get_method], which either returns the
    method or raises [NoSuchJavaMethod] with the message given on the left.
    [NULL] is [JavaBuiltInTypes.NULL]. *)
Class TypeModel : Type := {
  JavaType : Type;
  type_name : JavaType -> string;
  is_subtype_of : JavaType -> JavaType -> bool;
  get_method : JavaType -> string -> string + JavaMethod JavaType;
  NULL : JavaType
}.

Section Expressions.
Context `{TM : TypeModel}.

(** [receiver_type.get_method(method_name)] with its exception. *)
Definition lookup_method (t : JavaType) (method_name : string)
  : result (JavaMethod JavaType) :=
  match get_method t method_name with
  | inr m => Ok m
  | inl msg => Raise (NoSuchJavaMethod msg)
  end.

(** ** The expression tree *)

(** [JavaVariable]: a variable reference with its declared type. *)
Record JavaVariable : Type := {
  name : string;
  declared_type : JavaType
}.

(** The subclasses of [JavaExpression].  [lhs] of an assignment is a
    [JavaVariable], as the class documents; [args] is the tuple [*args]. *)
#[warnings="-register-all"] Inductive JavaExpression : Type :=
| EVariable (v : JavaVariable)
| JavaLiteral (value : string) (type : JavaType)
| JavaAssignment (lhs : JavaVariable) (rhs : JavaExpression)
| JavaMethodCall (receiver : JavaExpression) (method_name : string)
                 (args : list JavaExpression)
| JavaConstructorCall (instantiated_type : JavaType)
                      (args : list JavaExpression).

(** [JavaNullLiteral()], as a tree: the literal with the value ["null"] and
    the type [JavaBuiltInTypes.NULL] that its [__init__] passes on.  A tree
    does not record the class of a literal, which neither method reads;
    among the objects of the store model the subclass has a class of its
    own, [ONullLiteral]. *)
Definition JavaNullLiteral : JavaExpression := JavaLiteral "null" NULL.

(** [type(self).__name__] *)
Definition class_name (e : JavaExpression) : string :=
  match e with
  | EVariable _ => "JavaVariable"
  | JavaLiteral _ _ => "JavaLiteral"
  | JavaAssignment _ _ => "JavaAssignment"
  | JavaMethodCall _ _ _ => "JavaMethodCall"
  | JavaConstructorCall _ _ => "JavaConstructorCall"
  end.

(** ** Message formatting *)

(** [str(n)] for a length. *)
Definition str_of_nat (n : nat) : string :=
  NilEmpty.string_of_uint (Nat.to_uint n).

(** ["Cannot assign {0} to variable {1} of type {2}".format(...)] *)
Definition assign_message (rhs_type_name var_name lhs_type_name : string)
  : string :=
  "Cannot assign " ++ rhs_type_name ++ " to variable " ++ var_name
    ++ " of type " ++ lhs_type_name.

(** ["Wrong number of arguments for {}.{}(): expected {}, got {}".format(...)] *)
Definition count_message (receiver_type_name method_name : string)
           (expected actual : nat) : string :=
  "Wrong number of arguments for " ++ receiver_type_name ++ "."
    ++ method_name ++ "(): expected " ++ str_of_nat expected
    ++ ", got " ++ str_of_nat actual.

(** ["{}.{}() expects arguments of type ({}), but got ({})".format(...)],
    the two lists joined with [', ']. *)
Definition mismatch_message (receiver_type_name method_name : string)
           (expected_type_names actual_type_names : list string) : string :=
  receiver_type_name ++ "." ++ method_name
    ++ "() expects arguments of type ("
    ++ String.concat ", " expected_type_names
    ++ "), but got (" ++ String.concat ", " actual_type_names ++ ")".

(** ["... must override check_types()"] of the base class. *)
Definition must_override (e : JavaExpression) (method : string) : string :=
  class_name e ++ " must override " ++ method ++ "()".

(** ** [static_type] *)

Definition JavaVariable_static_type (v : JavaVariable) : result JavaType :=
  Ok (declared_type v).

Fixpoint static_type (e : JavaExpression) : result JavaType :=
  match e with
  | EVariable v => JavaVariable_static_type v
  | JavaLiteral _ type => Ok type
  | JavaAssignment lhs _ => JavaVariable_static_type lhs
  | JavaMethodCall receiver method_name _ =>
      receiver_type ← static_type receiver;
      method ← lookup_method receiver_type method_name;
      Ok (return_type method)
  | JavaConstructorCall instantiated_type _ => Ok instantiated_type
  end.

(** ** [check_types] *)

Definition JavaVariable_check_types (v : JavaVariable) : result unit :=
  Ok tt.

(** The body of the [for] loop of [JavaMethodCall.check_types], from index
    [i] on: [args] and [expected_types] are the remaining elements,
    [expected_type_names] and [actual_type_names] the two lists so far.
    [check] stands for the recursive call [arg.check_types()]. *)
Fixpoint check_args (check : JavaExpression -> result unit)
         (receiver_type_name method_name : string)
         (args : list JavaExpression) (expected_types : list JavaType)
         (expected_type_names actual_type_names : list string)
  : result unit :=
  match args, expected_types with
  | arg :: args', expected_type :: expected_types' =>
      check arg;;
      actual_type ← static_type arg;
      let expected_type_names :=
        expected_type_names ++ [type_name expected_type] in
      let actual_type_names :=
        actual_type_names ++ [type_name actual_type] in
      if negb (is_subtype_of actual_type expected_type) then
        Raise (JavaTypeMismatchError
                 (mismatch_message receiver_type_name method_name
                                   expected_type_names actual_type_names))
      else
        check_args check receiver_type_name method_name args'
                   expected_types' expected_type_names actual_type_names
  | _, _ => Ok tt
  end.

(** The same loop written with the index, as in the source:
    [for i in range(len(expected_types))] with [self.args[i]] and
    [expected_types[i]]; [n] counts the iterations left from [i].  The
    recursion of [check_types] goes through [check_args], whose calls of
    [check] are on elements of the list it walks; the two loops agree
    whenever the lengths do (lemma [check_args_indexed_eq]). *)
Fixpoint check_args_indexed (check : JavaExpression -> result unit)
         (receiver_type_name method_name : string)
         (args : list JavaExpression) (expected_types : list JavaType)
         (i n : nat) (expected_type_names actual_type_names : list string)
  : result unit :=
  match n with
  | O => Ok tt
  | S n =>
      match args !! i, expected_types !! i with
      | Some arg, Some expected_type =>
          check arg;;
          actual_type ← static_type arg;
          let expected_type_names :=
            expected_type_names ++ [type_name expected_type] in
          let actual_type_names :=
            actual_type_names ++ [type_name actual_type] in
          if negb (is_subtype_of actual_type expected_type) then
            Raise (JavaTypeMismatchError
                     (mismatch_message receiver_type_name method_name
                        expected_type_names actual_type_names))
          else
            check_args_indexed check receiver_type_name method_name
                               args expected_types (S i) n
                               expected_type_names actual_type_names
      | _, _ => Raise (IndexError "tuple index out of range")
      end
  end.

Fixpoint check_types (e : JavaExpression) : result unit :=
  match e with
  | EVariable v => JavaVariable_check_types v
  | JavaLiteral _ _ => Ok tt
  | JavaAssignment lhs rhs =>
      JavaVariable_check_types lhs;;
      check_types rhs;;
      lhs_type ← JavaVariable_static_type lhs;
      rhs_type ← static_type rhs;
      if negb (is_subtype_of rhs_type lhs_type) then
        Raise (JavaTypeMismatchError
                 (assign_message (type_name rhs_type) (name lhs)
                                 (type_name lhs_type)))
      else Ok tt
  | JavaMethodCall receiver method_name args =>
      check_types receiver;;
      receiver_type ← static_type receiver;
      method ← lookup_method receiver_type method_name;
      let expected_types := parameter_types method in
      if negb (Nat.eqb (List.length expected_types) (List.length args)) then
        Raise (JavaArgumentCountError
                 (count_message (type_name receiver_type) method_name
                                (List.length expected_types) (List.length args)))
      else
        check_args check_types (type_name receiver_type) method_name
                   args expected_types [] []
  | JavaConstructorCall _ _ =>
      (* no override: the inherited [JavaExpression.check_types] runs *)
      Raise (NotImplementedError (must_override e "check_types"))
  end.

(** ** An instrumented [check_types]

    The same method bodies, where every entry into a [check_types] method
    records the node it is called on.  The record is the sequence of nodes
    validated, in the order in which their validation starts. *)

Definition traced (A : Type) : Type := (list JavaExpression * result A)%type.

#[global] Instance traced_ret : MRet traced := fun A a => ([], Ok a).
#[global] Instance traced_bind : MBind traced := fun A B k m =>
  match m with
  | (t, Ok a) => let '(t', r) := k a in (t ++ t', r)
  | (t, Raise e) => (t, Raise e)
  end.

(** Entering [e.check_types()]. *)
Definition enter (e : JavaExpression) : traced unit := ([e], Ok tt).

(** A computation that calls no [check_types]. *)
Definition quiet {A : Type} (r : result A) : traced A := ([], r).

Definition JavaVariable_check_types_tr (v : JavaVariable) : traced unit :=
  enter (EVariable v).

Fixpoint check_args_tr (check : JavaExpression -> traced unit)
         (receiver_type_name method_name : string)
         (args : list JavaExpression) (expected_types : list JavaType)
         (expected_type_names actual_type_names : list string)
  : traced unit :=
  match args, expected_types with
  | arg :: args', expected_type :: expected_types' =>
      check arg;;
      actual_type ← quiet (static_type arg);
      let expected_type_names :=
        expected_type_names ++ [type_name expected_type] in
      let actual_type_names :=
        actual_type_names ++ [type_name actual_type] in
      if negb (is_subtype_of actual_type expected_type) then
        quiet (Raise (JavaTypeMismatchError
                 (mismatch_message receiver_type_name method_name
                                   expected_type_names actual_type_names)))
      else
        check_args_tr check receiver_type_name method_name args'
                      expected_types' expected_type_names actual_type_names
  | _, _ => mret tt
  end.

Fixpoint check_types_tr (e : JavaExpression) : traced unit :=
  enter e;;
  match e with
  | EVariable v => mret tt
  | JavaLiteral _ _ => mret tt
  | JavaAssignment lhs rhs =>
      JavaVariable_check_types_tr lhs;;
      check_types_tr rhs;;
      lhs_type ← quiet (JavaVariable_static_type lhs);
      rhs_type ← quiet (static_type rhs);
      if negb (is_subtype_of rhs_type lhs_type) then
        quiet (Raise (JavaTypeMismatchError
                 (assign_message (type_name rhs_type) (name lhs)
                                 (type_name lhs_type))))
      else mret tt
  | JavaMethodCall receiver method_name args =>
      check_types_tr receiver;;
      receiver_type ← quiet (static_type receiver);
      method ← quiet (lookup_method receiver_type method_name);
      let expected_types := parameter_types method in
      if negb (Nat.eqb (List.length expected_types) (List.length args)) then
        quiet (Raise (JavaArgumentCountError
                 (count_message (type_name receiver_type) method_name
                                (List.length expected_types)
                                (List.length args))))
      else
        check_args_tr check_types_tr (type_name receiver_type) method_name
                      args expected_types [] []
  | JavaConstructorCall _ _ =>
      quiet (Raise (NotImplementedError (must_override e "check_types")))
  end.

(** The nodes on which [check_types] is entered while [e] is validated. *)
Definition validated (e : JavaExpression) : list JavaExpression :=
  fst (check_types_tr e).

End Expressions.

(** ** The same methods over a store of node objects

    In Python every node is an object reached through a reference, and a
    method could assign to any attribute of any node.  Here the nodes live
    in a store, a method is a function from stores to stores and results,
    and a child is an address.  [None] means that the run is not described:
    an address without object, or not enough fuel for the recursion. *)

Section Store.
Context `{TM : TypeModel}.

Definition addr : Type := positive.

(** An object, by its class, with its attributes.  [OLiteral] is an
    instance of [JavaLiteral] itself; [ONullLiteral] is an instance of the
    subclass [JavaNullLiteral], whose [__init__] sets [value] to ["null"]
    and [type] to [JavaBuiltInTypes.NULL] and which inherits both methods.
    As a tree both are literals: no method of the tree reads the class. *)
Inductive object : Type :=
| OVariable (name : string) (declared_type : JavaType)
| OLiteral (value : string) (type : JavaType)
| OAssignment (lhs rhs : addr)
| OMethodCall (receiver : addr) (method_name : string) (args : list addr)
| OConstructorCall (instantiated_type : JavaType) (args : list addr)
| ONullLiteral.

(** [type(self).__name__] *)

Definition object_class_name (o : object) : string :=
  match o with
  | OVariable _ _ => "JavaVariable"
  | OLiteral _ _ => "JavaLiteral"
  | OAssignment _ _ => "JavaAssignment"
  | OMethodCall _ _ _ => "JavaMethodCall"
  | OConstructorCall _ _ => "JavaConstructorCall"
  | ONullLiteral => "JavaNullLiteral"
  end.

Definition comp (A : Type) : Type :=
  gmap addr object -> option (gmap addr object * result A).

Definition ret_h {A : Type} (a : A) : comp A := fun h => Some (h, Ok a).

Definition raise_h {A : Type} (e : PyException) : comp A :=
  fun h => Some (h, Raise e).

Definition lift_h {A : Type} (r : result A) : comp A := fun h => Some (h, r).

Definition bind_h {A B : Type} (c : comp A) (k : A -> comp B) : comp B :=
  fun h =>
    match c h with
    | Some (h', Ok a) => k a h'
    | Some (h', Raise e) => Some (h', Raise e)
    | None => None
    end.

(** Reading the object behind a reference. *)
Definition deref (l : addr) : comp object :=
  fun h => match h !! l with
           | Some o => Some (h, Ok o)
           | None => None
           end.

(** [o.name], an attribute of [JavaVariable] objects only. *)
Definition get_name (o : object) : comp string :=
  match o with
  | OVariable name _ => ret_h name
  | _ => raise_h (AttributeError
            ("'" ++ object_class_name o ++ "' object has no attribute 'name'"))
  end.

Fixpoint static_type_h (fuel : nat) (l : addr) : comp JavaType :=
  match fuel with
  | O => fun _ => None
  | S fuel =>
      bind_h (deref l) (fun self =>
      match self with
      | OVariable _ declared_type => ret_h declared_type
      | OLiteral _ type => ret_h type
      | OAssignment lhs _ => static_type_h fuel lhs
      | OMethodCall receiver method_name _ =>
          bind_h (static_type_h fuel receiver) (fun receiver_type =>
          bind_h (lift_h (lookup_method receiver_type method_name))
                 (fun method =>
          ret_h (return_type method)))
      | OConstructorCall instantiated_type _ => ret_h instantiated_type
      | ONullLiteral => ret_h NULL
      end)
  end.

Fixpoint check_args_h (check : addr -> comp unit)
         (static : addr -> comp JavaType)
         (receiver_type_name method_name : string)
         (args : list addr) (expected_types : list JavaType)
         (expected_type_names actual_type_names : list string)
  : comp unit :=
  match args, expected_types with
  | arg :: args', expected_type :: expected_types' =>
      bind_h (check arg) (fun _ =>
      bind_h (static arg) (fun actual_type =>
      let expected_type_names :=
        expected_type_names ++ [type_name expected_type] in
      let actual_type_names :=
        actual_type_names ++ [type_name actual_type] in
      if negb (is_subtype_of actual_type expected_type) then
        raise_h (JavaTypeMismatchError
                   (mismatch_message receiver_type_name method_name
                                     expected_type_names actual_type_names))
      else
        check_args_h check static receiver_type_name method_name args'
                     expected_types' expected_type_names actual_type_names))
  | _, _ => ret_h tt
  end.

Fixpoint check_types_h (fuel : nat) (l : addr) : comp unit :=
  match fuel with
  | O => fun _ => None
  | S fuel =>
      bind_h (deref l) (fun self =>
      match self with
      | OVariable _ _ => ret_h tt
      | OLiteral _ _ => ret_h tt
      | OAssignment lhs rhs =>
          bind_h (check_types_h fuel lhs) (fun _ =>
          bind_h (check_types_h fuel rhs) (fun _ =>
          bind_h (static_type_h fuel lhs) (fun lhs_type =>
          bind_h (static_type_h fuel rhs) (fun rhs_type =>
          if negb (is_subtype_of rhs_type lhs_type) then
            bind_h (deref lhs) (fun lhs_object =>
            bind_h (get_name lhs_object) (fun lhs_name =>
            raise_h (JavaTypeMismatchError
                       (assign_message (type_name rhs_type) lhs_name
                                       (type_name lhs_type)))))
          else ret_h tt))))
      | OMethodCall receiver method_name args =>
          bind_h (check_types_h fuel receiver) (fun _ =>
          bind_h (static_type_h fuel receiver) (fun receiver_type =>
          bind_h (lift_h (lookup_method receiver_type method_name))
                 (fun method =>
          let expected_types := parameter_types method in
          if negb (Nat.eqb (List.length expected_types) (List.length args))
          then
            raise_h (JavaArgumentCountError
                       (count_message (type_name receiver_type) method_name
                                      (List.length expected_types)
                                      (List.length args)))
          else
            check_args_h (check_types_h fuel) (static_type_h fuel)
                         (type_name receiver_type) method_name
                         args expected_types [] [])))
      | OConstructorCall _ _ =>
          raise_h (NotImplementedError
                     (object_class_name self ++ " must override check_types()"))
      | ONullLiteral => ret_h tt
      end)
  end.

(** The store holds, at [l], the tree [e]. *)
Inductive repr (h : gmap addr object) : addr -> JavaExpression -> Prop :=
| repr_variable l v :
    h !! l = Some (OVariable (name v) (declared_type v)) ->
    repr h l (EVariable v)
| repr_literal l value type :
    h !! l = Some (OLiteral value type) ->
    repr h l (JavaLiteral value type)
| repr_assignment l lhs rhs v e :
    h !! l = Some (OAssignment lhs rhs) ->
    repr h lhs (EVariable v) -> repr h rhs e ->
    repr h l (JavaAssignment v e)
| repr_method_call l receiver method_name args e es :
    h !! l = Some (OMethodCall receiver method_name args) ->
    repr h receiver e -> Forall2 (repr h) args es ->
    repr h l (JavaMethodCall e method_name es)
| repr_constructor_call l instantiated_type args es :
    h !! l = Some (OConstructorCall instantiated_type args) ->
    Forall2 (repr h) args es ->
    repr h l (JavaConstructorCall instantiated_type es)
| repr_null_literal l :
    h !! l = Some ONullLiteral ->
    repr h l (JavaLiteral "null" NULL).

(** Construction of the nodes: every constructor call [JavaVariable(...)],
    [JavaLiteral(value, type)], [JavaAssignment(lhs, rhs)], ... creates one
    new object, after the objects of its children; [__init__] is the only
    place where attributes are assigned. *)
Definition new_object (o : object) (h : gmap addr object)
  : addr * gmap addr object :=
  let l := fresh (dom h) in (l, <[l := o]> h).

Fixpoint alloc (e : JavaExpression) (h : gmap addr object)
  : addr * gmap addr object :=
  match e with
  | EVariable v => new_object (OVariable (name v) (declared_type v)) h
  | JavaLiteral value type => new_object (OLiteral value type) h
  | JavaAssignment lhs rhs =>
      let '(l_lhs, h) :=
        new_object (OVariable (name lhs) (declared_type lhs)) h in
      let '(l_rhs, h) := alloc rhs h in
      new_object (OAssignment l_lhs l_rhs) h
  | JavaMethodCall receiver method_name args =>
      let '(l_receiver, h) := alloc receiver h in
      let '(l_args, h) :=
        (fix alloc_all (es : list JavaExpression) (h : gmap addr object)
           : list addr * gmap addr object :=
           match es with
           | [] => ([], h)
           | e :: es =>
               let '(l, h) := alloc e h in
               let '(ls, h) := alloc_all es h in
               (l :: ls, h)
           end) args h in
      new_object (OMethodCall l_receiver method_name l_args) h
  | JavaConstructorCall instantiated_type args =>
      let '(l_args, h) :=
        (fix alloc_all (es : list JavaExpression) (h : gmap addr object)
           : list addr * gmap addr object :=
           match es with
           | [] => ([], h)
           | e :: es =>
               let '(l, h) := alloc e h in
               let '(ls, h) := alloc_all es h in
               (l :: ls, h)
           end) args h in
      new_object (OConstructorCall instantiated_type l_args) h
  end.

(** The constructions of a list of trees, one after the other. *)
Fixpoint alloc_all (es : list JavaExpression) (h : gmap addr object)
  : list addr * gmap addr object :=
  match es with
  | [] => ([], h)
  | e :: es =>
      let '(l, h) := alloc e h in
      let '(ls, h) := alloc_all es h in
      (l :: ls, h)
  end.

(** Every completed run of [c] hands back the store it was given. *)
Definition preserves_store {A : Type} (c : comp A) : Prop :=
  forall h h' r, c h = Some (h', r) -> h' = h.

(** Nesting depth of a tree, the bound on the recursion of both methods. *)
Fixpoint height (e : JavaExpression) : nat :=
  match e with
  | EVariable _ | JavaLiteral _ _ => 0
  | JavaAssignment _ rhs => S (height rhs)
  | JavaMethodCall receiver _ args =>
      S (Nat.max (height receiver) (list_max (map height args)))
  | JavaConstructorCall _ args => S (list_max (map height args))
  end.

End Store.

(** ** Vocabulary for stating properties of a call *)

Section Notions.
Context `{TM : TypeModel}.

(** The node validates: [e.check_types()] returns. *)
Definition valid (e : JavaExpression) : Prop := check_types e = Ok tt.

(** [arg.static_type().is_subtype_of(expected_type)], false when the static
    type is undefined. *)
Definition conforms (arg : JavaExpression) (expected_type : JavaType) : bool :=
  match static_type arg with
  | Ok actual_type => is_subtype_of actual_type expected_type
  | Raise _ => false
  end.

(** The smallest position at which an argument does not conform to the
    declared parameter type, if there is one. *)
Fixpoint first_mismatch (args : list JavaExpression)
         (expected_types : list JavaType) : option nat :=
  match args, expected_types with
  | arg :: args', expected_type :: expected_types' =>
      if conforms arg expected_type
      then S <$> first_mismatch args' expected_types'
      else Some 0
  | _, _ => None
  end.

(** The names of the static types of [args], in order. *)
Definition actual_type_names (args : list JavaExpression) : list string :=
  omap (fun arg => match static_type arg with
                   | Ok actual_type => Some (type_name actual_type)
                   | Raise _ => None
                   end) args.

(** The argument passes its iteration of the loop. *)
Definition accepted (arg : JavaExpression) (expected_type : JavaType) : Prop :=
  valid arg /\ conforms arg expected_type = true.

(** The call gets as far as its signature: the receiver validates and the
    lookup of [method_name] on its static type yields [method]. *)
Definition resolves_to (receiver : JavaExpression) (method_name : string)
           (receiver_type : JavaType) (method : JavaMethod JavaType) : Prop :=
  valid receiver /\ static_type receiver = Ok receiver_type
  /\ get_method receiver_type method_name = inr method.

(** The message of a mismatch that names every declared parameter type and
    the static type of every argument. *)
Definition full_mismatch_message (receiver_type : JavaType)
           (method_name : string) (method : JavaMethod JavaType)
           (args : list JavaExpression) : string :=
  mismatch_message (type_name receiver_type) method_name
                   (type_name <$> parameter_types method)
                   (actual_type_names args).

(** The message of a mismatch at position [k]: the names up to and
    including that position. *)
Definition prefix_mismatch_message (receiver_type : JavaType)
           (method_name : string) (method : JavaMethod JavaType)
           (args : list JavaExpression) (k : nat) : string :=
  mismatch_message (type_name receiver_type) method_name
                   (type_name <$> take (S k) (parameter_types method))
                   (actual_type_names (take (S k) args)).

End Notions.

(** ** The helper [_names] and the shape of a tree *)

(** The things [_names] accepts: objects with an attribute [name]. *)
Class Named (A : Type) : Type := name_of : A -> string.

Section Traversal.
Context `{TM : TypeModel}.

#[global] Instance JavaType_Named : Named JavaType := type_name.
#[global] Instance JavaVariable_Named : Named JavaVariable := name.

(** [_names(named_things)]:
    ["(" + ", ".join([e.name for e in named_things]) + ")"] *)
Definition _names {A : Type} `{Named A} (named_things : list A) : string :=
  "(" ++ String.concat ", " (name_of <$> named_things) ++ ")".

(** The static types of the arguments that have one, in order. *)
Definition static_types (args : list JavaExpression) : list JavaType :=
  omap (fun arg => match static_type arg with
                   | Ok actual_type => Some actual_type
                   | Raise _ => None
                   end) args.

(** The nodes of a tree, parent first, children from left to right. *)
Fixpoint preorder (e : JavaExpression) : list JavaExpression :=
  e :: match e with
       | EVariable _ | JavaLiteral _ _ => []
       | JavaAssignment lhs rhs => EVariable lhs :: preorder rhs
       | JavaMethodCall receiver _ args =>
           preorder receiver ++ concat (map preorder args)
       | JavaConstructorCall _ args => concat (map preorder args)
       end.

(** [isinstance(e, JavaConstructorCall)] *)
Definition is_constructor_call (e : JavaExpression) : bool :=
  match e with
  | JavaConstructorCall _ _ => true
  | _ => false
  end.

(** The tree with the text of every literal replaced by [value]. *)
Fixpoint with_literal_values (value : string) (e : JavaExpression)
  : JavaExpression :=
  match e with
  | EVariable v => EVariable v
  | JavaLiteral _ type => JavaLiteral value type
  | JavaAssignment lhs rhs =>
      JavaAssignment lhs (with_literal_values value rhs)
  | JavaMethodCall receiver method_name args =>
      JavaMethodCall (with_literal_values value receiver) method_name
                     (map (with_literal_values value) args)
  | JavaConstructorCall instantiated_type args =>
      JavaConstructorCall instantiated_type
                          (map (with_literal_values value) args)
  end.

(** The message of the base class's [check_types]. *)
Definition constructor_call_message : string :=
  "JavaConstructorCall must override check_types()".

(** The walk of [check_types] over [e] ends on a constructor call. *)
Definition stops_at_constructor_call (e : JavaExpression) : Prop :=
  exists t args, last (validated e) = Some (JavaConstructorCall t args).

(** The exceptions that [check_types] has a [raise] or a call for. *)
Definition raised_by_check_types (x : PyException) : Prop :=
  match x with
  | NoSuchJavaMethod _ | JavaTypeMismatchError _
  | JavaArgumentCountError _ => True
  | NotImplementedError msg => msg = constructor_call_message
  | JavaIllegalInstantiationError _ | AttributeError _ | IndexError _ => False
  end.

End Traversal.

(** ** A small type universe to run the definitions on *)

Module Sample.

Inductive ty : Type := Int | Boolean | Void | Object | String | Foo | Null.

Definition ty_name (t : ty) : string :=
  match t with
  | Int => "int" | Boolean => "boolean" | Void => "void"
  | Object => "Object" | String => "String" | Foo => "Foo" | Null => "null"
  end.

Definition ty_eqb (a b : ty) : bool :=
  match a, b with
  | Int, Int | Boolean, Boolean | Void, Void | Object, Object
  | String, String | Foo, Foo | Null, Null => true
  | _, _ => false
  end.

Definition is_reference (t : ty) : bool :=
  match t with
  | Object | String | Foo | Null => true
  | _ => false
  end.

Definition subtype (a b : ty) : bool :=
  ty_eqb a b
  || match a, b with
     | (String | Foo), Object => true
     | Null, _ => is_reference b
     | _, _ => false
     end.

Definition methods (t : ty) (m : string) : string + JavaMethod ty :=
  let absent := inl (ty_name t ++ " has no method named " ++ m)%string in
  match t with
  | Foo =>
      if String.eqb m "bar" then
        inr {| parameter_types := [Int]; return_type := Void |}
      else if String.eqb m "move" then
        inr {| parameter_types := [Int; Int]; return_type := Void |}
      else absent
  | String =>
      if String.eqb m "length" then
        inr {| parameter_types := []; return_type := Int |}
      else absent
  | _ => absent
  end.

#[global] Instance model : TypeModel := {|
  JavaType := ty;
  type_name := ty_name;
  is_subtype_of := subtype;
  get_method := methods;
  NULL := Null
|}.

Definition x : JavaVariable := {| name := "x"; declared_type := Int |}.
Definition s : JavaVariable := {| name := "s"; declared_type := String |}.
Definition foo : JavaVariable := {| name := "foo"; declared_type := Foo |}.
Definition lit (v : string) (t : ty) : JavaExpression := JavaLiteral v t.

Definition bar : JavaMethod ty :=
  {| parameter_types := [Int]; return_type := Void |}.
Definition move : JavaMethod ty :=
  {| parameter_types := [Int; Int]; return_type := Void |}.

(** [x = "a"], an assignment that does not validate. *)
Definition bad_assignment : JavaExpression :=
  JavaAssignment x (lit "a" String).

(** [new Foo()] *)
Definition new_foo : JavaExpression := JavaConstructorCall Foo [].

(** [foo.move("a", 2)]: the first argument has the wrong type. *)
Definition move_a_2 : list JavaExpression := [lit "a" String; lit "2" Int].

(** [foo.move(1, x = "a")]: the second argument does not validate. *)
Definition move_1_bad : list JavaExpression := [lit "1" Int; bad_assignment].

(** A store holding [x = "a"] at address 1. *)
Definition store_bad_assignment : gmap addr object :=
  <[1%positive := OAssignment 2%positive 3%positive]>
    (<[2%positive := OVariable "x" Int]>
       (<[3%positive := OLiteral "a" String]> ∅)).

(** [foo.bar(x = 5)]: a call that validates. *)
Definition bar_call : JavaExpression :=
  JavaMethodCall (EVariable foo) "bar" [JavaAssignment x (lit "5" Int)].

(** A store holding an assignment object whose [lhs] is the literal [5] and
    whose [rhs] is the literal ["a"]. *)
Definition store_literal_assignment : gmap addr object :=
  <[1%positive := OAssignment 2%positive 3%positive]>
    (<[2%positive := OLiteral "5" Int]>
       (<[3%positive := OLiteral "a" String]> ∅)).

(** A store holding an assignment object whose [lhs] is a [JavaNullLiteral]
    object and whose [rhs] is the literal [5]. *)
Definition store_null_assignment : gmap addr object :=
  <[1%positive := OAssignment 2%positive 3%positive]>
    (<[2%positive := ONullLiteral]>
       (<[3%positive := OLiteral "5" Int]> ∅)).

End Sample.

(** * Properties *)

Section Facts.
Context `{TM : TypeModel}.

#[local] Arguments lookup_method : simpl never.

(** Induction over trees, with the hypothesis available for every argument
    of a call. *)
Lemma JavaExpression_nested_ind (P : JavaExpression -> Prop) :
  (forall v, P (EVariable v)) ->
  (forall value type, P (JavaLiteral value type)) ->
  (forall lhs rhs, P rhs -> P (JavaAssignment lhs rhs)) ->
  (forall receiver method_name args,
      P receiver -> Forall P args ->
      P (JavaMethodCall receiver method_name args)) ->
  (forall instantiated_type args,
      Forall P args -> P (JavaConstructorCall instantiated_type args)) ->
  forall e, P e.
Proof.
  intros Hvar Hlit Hassign Hcall Hnew.
  fix IH 1. intros [v | value type | lhs rhs | receiver m args | t args].
  - apply Hvar.
  - apply Hlit.
  - apply Hassign, IH.
  - apply Hcall; [apply IH |].
    induction args as [| a args IHargs]; constructor; [apply IH | exact IHargs].
  - apply Hnew.
    induction args as [| a args IHargs]; constructor; [apply IH | exact IHargs].
Qed.

Lemma bind_Ok {A B : Type} (a : A) (k : A -> result B) :
  mbind k (Ok a) = k a.
Proof. reflexivity. Qed.

Lemma bind_Raise {A B : Type} (x : PyException) (k : A -> result B) :
  mbind k (Raise x) = Raise x.
Proof. reflexivity. Qed.

Lemma bind_Ok_inv {A B : Type} (r : result A) (k : A -> result B) (b : B) :
  mbind k r = Ok b -> exists a, r = Ok a /\ k a = Ok b.
Proof. destruct r as [a | x]; [eauto | discriminate]. Qed.

(** Every class overrides [static_type]: none fails with
    [NotImplementedError]; the only failure is a failed method lookup. *)
Lemma static_type_raises_only_NoSuchJavaMethod e x :
  static_type e = Raise x -> exists msg, x = NoSuchJavaMethod msg.
Proof.
  induction e as [v | value type | lhs rhs _ | receiver m args IH _ | t args _]
    using JavaExpression_nested_ind; cbn; try discriminate.
  destruct (static_type receiver) as [rt | y]; cbn.
  - unfold lookup_method. destruct (get_method rt m) as [msg | sig]; cbn.
    + intros [= <-]. eauto.
    + discriminate.
  - intros [= <-]. apply IH. reflexivity.
Qed.

(** A node that validates has a static type. *)
Lemma valid_static_type e :
  valid e -> exists t, static_type e = Ok t.
Proof.
  unfold valid.
  destruct e as [v | value type | lhs rhs | receiver m args | t args]; cbn.
  all: try (eexists; reflexivity).
  intros H.
  apply bind_Ok_inv in H as (_ & _ & H).
  apply bind_Ok_inv in H as (rt & Hrt & H).
  apply bind_Ok_inv in H as (sig & Hsig & H).
  rewrite Hrt; cbn. rewrite Hsig; cbn. eauto.
Qed.

(** *** The loop over the arguments *)

Section Loop.
Variables receiver_type_name method_name : string.

Abbreviation loop := (check_args check_types receiver_type_name method_name).

Lemma conforms_true arg expected_type :
  conforms arg expected_type = true ->
  exists t, static_type arg = Ok t /\ is_subtype_of t expected_type = true.
Proof.
  unfold conforms. destruct (static_type arg) as [t | x]; [eauto | discriminate].
Qed.

Lemma conforms_false_valid arg expected_type :
  valid arg -> conforms arg expected_type = false ->
  exists t, static_type arg = Ok t /\ is_subtype_of t expected_type = false.
Proof.
  intros Hv. apply valid_static_type in Hv as [t Ht].
  unfold conforms. rewrite Ht. eauto.
Qed.

Lemma actual_type_names_cons arg args t :
  static_type arg = Ok t ->
  actual_type_names (arg :: args) = type_name t :: actual_type_names args.
Proof. intros H. unfold actual_type_names. cbn. rewrite H. reflexivity. Qed.

Lemma actual_type_names_app args1 args2 :
  actual_type_names (args1 ++ args2)
  = actual_type_names args1 ++ actual_type_names args2.
Proof. apply omap_app. Qed.

(** An accepted argument only extends the two lists of names. *)
Lemma check_args_accepted arg expected_type args expected_types names actuals :
  accepted arg expected_type ->
  loop (arg :: args) (expected_type :: expected_types) names actuals
  = loop args expected_types (names ++ [type_name expected_type])
         (actuals ++ actual_type_names [arg]).
Proof.
  intros [Hv Hc]. apply conforms_true in Hc as (t & Ht & Hsub).
  rewrite (actual_type_names_cons _ _ _ Ht).
  cbn. rewrite Hv, Ht. cbn. rewrite Hsub. reflexivity.
Qed.

(** A prefix of accepted arguments is passed over. *)
Lemma check_args_skip pre expected_pre rest expected_rest names actuals :
  Forall2 accepted pre expected_pre ->
  loop (pre ++ rest) (expected_pre ++ expected_rest) names actuals
  = loop rest expected_rest (names ++ (type_name <$> expected_pre))
         (actuals ++ actual_type_names pre).
Proof.
  intros H. revert names actuals.
  induction H as [| arg expected_type pre expected_pre Hacc _ IH];
    intros names actuals.
  - cbn. rewrite !app_nil_r. reflexivity.
  - rewrite <- !app_comm_cons, (check_args_accepted _ _ _ _ _ _ Hacc), IH.
    change (arg :: pre) with ([arg] ++ pre).
    rewrite actual_type_names_app, fmap_cons, <- !app_assoc. reflexivity.
Qed.

(** The exception of an argument's own validation leaves the loop. *)
Lemma check_args_head_failure arg expected_type args expected_types
      names actuals x :
  check_types arg = Raise x ->
  loop (arg :: args) (expected_type :: expected_types) names actuals = Raise x.
Proof. intros H. cbn. rewrite H. reflexivity. Qed.

(** A valid argument of the wrong type raises with the lists so far. *)
Lemma check_args_head_mismatch arg expected_type args expected_types
      names actuals :
  valid arg -> conforms arg expected_type = false ->
  loop (arg :: args) (expected_type :: expected_types) names actuals
  = Raise (JavaTypeMismatchError
             (mismatch_message receiver_type_name method_name
                (names ++ [type_name expected_type])
                (actuals ++ actual_type_names [arg]))).
Proof.
  intros Hv Hc. destruct (conforms_false_valid _ _ Hv Hc) as (t & Ht & Hsub).
  rewrite (actual_type_names_cons _ _ _ Ht).
  cbn. rewrite Hv, Ht. cbn. rewrite Hsub. reflexivity.
Qed.

End Loop.

(** The loop over the indices is the loop over the two lists. *)
Lemma check_args_indexed_from check rn m args expected_types :
  length args = length expected_types ->
  forall n i names actuals,
    i + n = length expected_types ->
    check_args_indexed check rn m args expected_types i n names actuals
    = check_args check rn m (drop i args) (drop i expected_types)
                 names actuals.
Proof.
  intros Hlen.
  induction n as [| n IH]; intros i names actuals Hi.
  - rewrite !drop_ge by lia. reflexivity.
  - cbn [check_args_indexed].
    destruct (lookup_lt_is_Some_2 args i) as [arg Ha]; [lia |].
    destruct (lookup_lt_is_Some_2 expected_types i) as [t Ht]; [lia |].
    rewrite Ha, Ht, (drop_S _ _ _ Ha), (drop_S _ _ _ Ht).
    cbn [check_args].
    destruct (check arg) as [[] | x]; [| reflexivity]. rewrite !bind_Ok.
    destruct (static_type arg) as [actual | x]; [| reflexivity].
    rewrite !bind_Ok.
    destruct (negb _); [reflexivity |].
    apply IH. lia.
Qed.

Lemma check_args_indexed_eq check rn m args expected_types :
  length args = length expected_types ->
  check_args_indexed check rn m args expected_types
                     0 (length expected_types) [] []
  = check_args check rn m args expected_types [] [].
Proof.
  intros Hlen.
  rewrite (check_args_indexed_from _ _ _ _ _ Hlen) by reflexivity.
  reflexivity.
Qed.

(** *** The first mismatch *)

Lemma first_mismatch_prefix args expected_types k :
  first_mismatch args expected_types = Some k ->
  Forall2 (fun a t => conforms a t = true)
          (take k args) (take k expected_types)
  /\ exists arg expected_type,
      args !! k = Some arg /\ expected_types !! k = Some expected_type
      /\ conforms arg expected_type = false.
Proof.
  revert expected_types k.
  induction args as [| a args IH]; intros [| t ts] k; cbn; try discriminate.
  destruct (conforms a t) eqn:Hc.
  - destruct (first_mismatch args ts) as [j |] eqn:Hj; cbn; [| discriminate].
    intros [= <-]. destruct (IH _ _ Hj) as (Hpre & Hk). cbn.
    split; [constructor; assumption | exact Hk].
  - intros [= <-]. cbn. split; [constructor | eauto].
Qed.

(** [first_mismatch] is the smallest position that does not conform. *)
Lemma first_mismatch_smallest args expected_types k :
  first_mismatch args expected_types = Some k <->
  (exists arg expected_type,
      args !! k = Some arg /\ expected_types !! k = Some expected_type
      /\ conforms arg expected_type = false)
  /\ (forall i arg expected_type,
        i < k -> args !! i = Some arg ->
        expected_types !! i = Some expected_type ->
        conforms arg expected_type = true).
Proof.
  split.
  - intros H. apply first_mismatch_prefix in H as (Hpre & Hk).
    split; [exact Hk |].
    intros i arg t Hi Ha Ht.
    eapply (Forall2_lookup_lr _ _ _ i) in Hpre; [exact Hpre | |].
    + rewrite lookup_take_lt; assumption.
    + rewrite lookup_take_lt; assumption.
  - revert expected_types k.
    induction args as [| a args IH]; intros [| t ts] k
      ((arg & et & Ha & Ht & Hc) & Hlt).
    1-3: destruct k; simplify_eq/=.
    cbn. destruct k as [| k]; simpl in Ha, Ht.
    + injection Ha as ->. injection Ht as ->. rewrite Hc. reflexivity.
    + rewrite (Hlt 0 a t); [| lia | reflexivity | reflexivity].
      rewrite (IH ts k); [reflexivity |].
      split; [eauto |].
      intros i arg' t' Hi Ha' Ht'. apply (Hlt (S i)); [lia | assumption ..].
Qed.

(** *** The instrumented methods *)

Lemma traced_bind_Ok {A B : Type} t (a : A) (k : A -> traced B) :
  mbind k (t, Ok a) = (t ++ fst (k a), snd (k a)).
Proof. cbn. destruct (k a); reflexivity. Qed.

Lemma traced_bind_Raise {A B : Type} t x (k : A -> traced B) :
  mbind k (t, Raise x) = (t, Raise x).
Proof. reflexivity. Qed.

Section TracedLoop.
Variables receiver_type_name method_name : string.

Abbreviation loop_tr :=
  (check_args_tr check_types_tr receiver_type_name method_name).

(** Erasing the record gives back the loop of [check_types]. *)
Lemma check_args_tr_erase args :
  Forall (fun a => snd (check_types_tr a) = check_types a) args ->
  forall expected_types names actuals,
    snd (loop_tr args expected_types names actuals)
    = check_args check_types receiver_type_name method_name
                 args expected_types names actuals.
Proof.
  induction 1 as [| arg args Harg _ IH]; intros [| t ts] names actuals;
    try reflexivity.
  cbn [check_args_tr check_args].
  destruct (check_types_tr arg) as [tr r]. cbn in Harg. subst r.
  destruct (check_types arg) as [[] | x]; [| reflexivity].
  rewrite traced_bind_Ok, bind_Ok. cbn [snd]. unfold quiet.
  destruct (static_type arg) as [actual | x]; [| reflexivity].
  rewrite traced_bind_Ok, bind_Ok. cbn [snd].
  destruct (is_subtype_of actual t); cbn [negb]; [apply IH | reflexivity].
Qed.

End TracedLoop.

(** Erasing the record gives back [check_types]. *)
Lemma check_types_tr_erase e : snd (check_types_tr e) = check_types e.
Proof.
  induction e as [v | value type | lhs rhs IH | receiver m args IH IHargs
                  | t args _] using JavaExpression_nested_ind;
    try reflexivity.
  - cbn [check_types_tr check_types].
    unfold enter, JavaVariable_check_types_tr, JavaVariable_check_types,
      JavaVariable_static_type, enter, quiet.
    rewrite !traced_bind_Ok, !bind_Ok. cbn [snd].
    destruct (check_types_tr rhs) as [tr r]. cbn in IH. subst r.
    destruct (check_types rhs) as [[] | x]; [| reflexivity].
    rewrite !traced_bind_Ok, !bind_Ok. cbn [snd].
    destruct (static_type rhs) as [rt | x]; [| reflexivity].
    rewrite !traced_bind_Ok, !bind_Ok. cbn [snd].
    destruct (is_subtype_of rt (declared_type lhs)); reflexivity.
  - cbn [check_types_tr check_types]. unfold enter, quiet.
    rewrite !traced_bind_Ok. cbn [snd].
    destruct (check_types_tr receiver) as [tr r]. cbn in IH. subst r.
    destruct (check_types receiver) as [[] | x]; [| reflexivity].
    rewrite !traced_bind_Ok, !bind_Ok. cbn [snd].
    destruct (static_type receiver) as [rt | x]; [| reflexivity].
    rewrite !traced_bind_Ok, !bind_Ok. cbn [snd].
    destruct (lookup_method rt m) as [sig | x]; [| reflexivity].
    rewrite !traced_bind_Ok, !bind_Ok. cbn [snd].
    destruct (Nat.eqb _ _); cbn [negb]; [| reflexivity].
    apply check_args_tr_erase, IHargs.
Qed.

Lemma check_types_tr_pair e :
  check_types_tr e = (validated e, check_types e).
Proof.
  unfold validated. rewrite <- check_types_tr_erase.
  destruct (check_types_tr e); reflexivity.
Qed.

(** Validation of a node starts with the node itself. *)
Lemma validated_self e : exists rest, validated e = e :: rest.
Proof.
  unfold validated.
  destruct e; cbn [check_types_tr]; unfold enter; rewrite traced_bind_Ok;
    cbn [fst app]; eauto.
Qed.

Section TracedLoopSteps.
Variables receiver_type_name method_name : string.

Abbreviation loop_tr' :=
  (check_args_tr check_types_tr receiver_type_name method_name).

Lemma check_args_tr_accepted arg expected_type args expected_types
      names actuals :
  accepted arg expected_type ->
  loop_tr' (arg :: args) (expected_type :: expected_types) names actuals
  = let r := loop_tr' args expected_types
                      (names ++ [type_name expected_type])
                      (actuals ++ actual_type_names [arg]) in
    (validated arg ++ fst r, snd r).
Proof.
  intros [Hv Hc]. apply conforms_true in Hc as (t & Ht & Hsub).
  rewrite (actual_type_names_cons _ _ _ Ht).
  cbn [check_args_tr]. rewrite check_types_tr_pair, Hv, traced_bind_Ok.
  unfold quiet. rewrite Ht, traced_bind_Ok, Hsub. reflexivity.
Qed.

Lemma check_args_tr_skip pre expected_pre rest expected_rest names actuals :
  Forall2 accepted pre expected_pre ->
  loop_tr' (pre ++ rest) (expected_pre ++ expected_rest) names actuals
  = let r := loop_tr' rest expected_rest
                      (names ++ (type_name <$> expected_pre))
                      (actuals ++ actual_type_names pre) in
    (concat (validated <$> pre) ++ fst r, snd r).
Proof.
  intros H. revert names actuals.
  induction H as [| arg expected_type pre expected_pre Hacc _ IH];
    intros names actuals.
  - cbn. rewrite !app_nil_r. destruct (loop_tr' _ _ _ _); reflexivity.
  - rewrite <- !app_comm_cons, (check_args_tr_accepted _ _ _ _ _ _ Hacc), IH.
    cbn zeta. cbn [fst snd].
    replace (actual_type_names (arg :: pre))
      with (actual_type_names [arg] ++ actual_type_names pre)
      by (rewrite <- actual_type_names_app; reflexivity).
    rewrite !fmap_cons. cbn [concat].
    rewrite <- !app_assoc. reflexivity.
Qed.

Lemma check_args_tr_head_failure arg expected_type args expected_types
      names actuals x :
  check_types arg = Raise x ->
  loop_tr' (arg :: args) (expected_type :: expected_types) names actuals
  = (validated arg, Raise x).
Proof.
  intros H. cbn [check_args_tr].
  rewrite check_types_tr_pair, H. reflexivity.
Qed.

Lemma check_args_tr_head_mismatch arg expected_type args expected_types
      names actuals :
  valid arg -> conforms arg expected_type = false ->
  loop_tr' (arg :: args) (expected_type :: expected_types) names actuals
  = (validated arg,
     Raise (JavaTypeMismatchError
              (mismatch_message receiver_type_name method_name
                 (names ++ [type_name expected_type])
                 (actuals ++ actual_type_names [arg])))).
Proof.
  intros Hv Hc. destruct (conforms_false_valid _ _ Hv Hc) as (t & Ht & Hsub).
  rewrite (actual_type_names_cons _ _ _ Ht).
  cbn [check_args_tr]. rewrite check_types_tr_pair, Hv, traced_bind_Ok.
  unfold quiet. rewrite Ht, traced_bind_Ok, Hsub. cbn. rewrite app_nil_r.
  reflexivity.
Qed.

End TracedLoopSteps.

(** *** A call whose receiver validates and whose method resolves *)

Lemma check_types_resolved receiver m args rt sig :
  resolves_to receiver m rt sig ->
  check_types (JavaMethodCall receiver m args)
  = if negb (Nat.eqb (length (parameter_types sig)) (length args)) then
      Raise (JavaArgumentCountError
               (count_message (type_name rt) m
                              (length (parameter_types sig)) (length args)))
    else check_args check_types (type_name rt) m args (parameter_types sig)
                    [] [].
Proof.
  intros (Hv & Ht & Hm). cbn [check_types].
  rewrite Hv, bind_Ok, Ht, bind_Ok. unfold lookup_method. rewrite Hm.
  reflexivity.
Qed.

Lemma check_types_tr_resolved receiver m args rt sig :
  resolves_to receiver m rt sig ->
  check_types_tr (JavaMethodCall receiver m args)
  = let r :=
      if negb (Nat.eqb (length (parameter_types sig)) (length args)) then
        quiet (Raise (JavaArgumentCountError
                 (count_message (type_name rt) m
                                (length (parameter_types sig)) (length args))))
      else check_args_tr check_types_tr (type_name rt) m args
                         (parameter_types sig) [] [] in
    (JavaMethodCall receiver m args :: validated receiver ++ fst r, snd r).
Proof.
  intros (Hv & Ht & Hm). cbn [check_types_tr]. unfold enter.
  rewrite traced_bind_Ok, check_types_tr_pair, Hv, traced_bind_Ok.
  unfold quiet. rewrite Ht, traced_bind_Ok. unfold lookup_method.
  rewrite Hm, traced_bind_Ok. reflexivity.
Qed.

(** With [k] accepted arguments in front, the loop is at position [k]. *)
Lemma check_args_reach rn m args expected_types k arg expected_type :
  Forall2 accepted (take k args) (take k expected_types) ->
  args !! k = Some arg -> expected_types !! k = Some expected_type ->
  check_args check_types rn m args expected_types [] []
  = check_args check_types rn m
      (arg :: drop (S k) args) (expected_type :: drop (S k) expected_types)
      (type_name <$> take k expected_types)
      (actual_type_names (take k args)).
Proof.
  intros Hpre Ha Ht.
  rewrite <- (take_drop_middle args k arg Ha) at 1.
  rewrite <- (take_drop_middle expected_types k expected_type Ht) at 1.
  rewrite (check_args_skip _ _ _ _ _ _ _ _ Hpre). reflexivity.
Qed.

Lemma check_args_tr_reach rn m args expected_types k arg expected_type :
  Forall2 accepted (take k args) (take k expected_types) ->
  args !! k = Some arg -> expected_types !! k = Some expected_type ->
  check_args_tr check_types_tr rn m args expected_types [] []
  = let r := check_args_tr check_types_tr rn m
               (arg :: drop (S k) args)
               (expected_type :: drop (S k) expected_types)
               (type_name <$> take k expected_types)
               (actual_type_names (take k args)) in
    (concat (validated <$> take k args) ++ fst r, snd r).
Proof.
  intros Hpre Ha Ht.
  rewrite <- (take_drop_middle args k arg Ha) at 1.
  rewrite <- (take_drop_middle expected_types k expected_type Ht) at 1.
  rewrite (check_args_tr_skip _ _ _ _ _ _ _ _ Hpre). reflexivity.
Qed.

Lemma validated_take_S args k arg :
  args !! k = Some arg ->
  concat (validated <$> take (S k) args)
  = concat (validated <$> take k args) ++ validated arg.
Proof.
  intros Ha. rewrite (take_S_r _ _ _ Ha), fmap_app, concat_app. cbn.
  rewrite app_nil_r. reflexivity.
Qed.

(** A first mismatch at [k] behind valid arguments: the arguments before
    [k] are accepted and the one at [k] is valid but does not conform. *)
Lemma first_mismatch_accepted args expected_types k :
  first_mismatch args expected_types = Some k ->
  Forall valid (take (S k) args) ->
  Forall2 accepted (take k args) (take k expected_types)
  /\ exists arg expected_type,
      args !! k = Some arg /\ expected_types !! k = Some expected_type
      /\ valid arg /\ conforms arg expected_type = false.
Proof.
  intros Hk Hv.
  apply first_mismatch_prefix in Hk as (Hpre & arg & t & Ha & Ht & Hc).
  rewrite (take_S_r _ _ _ Ha) in Hv. apply Forall_app in Hv as [Hv Hvk].
  split.
  - clear -Hpre Hv. induction Hpre as [| a e l l' Hae _ IH].
    + constructor.
    + inversion Hv; subst. constructor; [split; assumption | auto].
  - exists arg, t. inversion Hvk; subst. auto.
Qed.

(** The outcome and the record of a call that stops at a first mismatch. *)
Lemma method_call_mismatch_run receiver m args rt sig k :
  resolves_to receiver m rt sig ->
  length args = length (parameter_types sig) ->
  first_mismatch args (parameter_types sig) = Some k ->
  Forall valid (take (S k) args) ->
  check_types_tr (JavaMethodCall receiver m args)
  = (JavaMethodCall receiver m args
       :: validated receiver ++ concat (validated <$> take (S k) args),
     Raise (JavaTypeMismatchError (prefix_mismatch_message rt m sig args k))).
Proof.
  intros Hres Hlen Hk Hv.
  destruct (first_mismatch_accepted _ _ _ Hk Hv)
    as (Hpre & arg & t & Ha & Ht & Hva & Hc).
  rewrite (check_types_tr_resolved _ _ _ _ _ Hres), Hlen, Nat.eqb_refl.
  cbn [negb]. rewrite (check_args_tr_reach _ _ _ _ _ _ _ Hpre Ha Ht).
  rewrite (check_args_tr_head_mismatch _ _ _ _ _ _ _ _ Hva Hc).
  cbn zeta. cbn [fst snd].
  rewrite (validated_take_S _ _ _ Ha). unfold prefix_mismatch_message.
  rewrite (take_S_r _ _ _ Ha), (take_S_r _ _ _ Ht).
  rewrite fmap_app, actual_type_names_app. reflexivity.
Qed.

(** [first_mismatch] looks at no argument behind the mismatch. *)
Lemma first_mismatch_later args expected_types k later :
  first_mismatch args expected_types = Some k ->
  first_mismatch (take (S k) args ++ later) expected_types = Some k.
Proof.
  revert expected_types k.
  induction args as [| a args IH]; intros [| t ts] k;
    cbn [first_mismatch]; try discriminate.
  destruct (conforms a t) eqn:Hc.
  - destruct (first_mismatch args ts) as [j |] eqn:Hj; cbn; [| discriminate].
    intros [= <-].
    change (take (S (S j)) (a :: args) ++ later)
      with (a :: (take (S j) args ++ later)).
    cbn [first_mismatch]. rewrite Hc, (IH _ _ Hj). reflexivity.
  - intros [= <-].
    change (take 1 (a :: args) ++ later) with (a :: later).
    cbn [first_mismatch]. rewrite Hc. reflexivity.
Qed.

(** ** The claims about [static_type] and [check_types] *)

(** C1 (the code departs from the claim). [JavaConstructorCall] defines no
    [check_types], so the method of the base class runs: for every
    instantiated type and every argument list the call raises
    [NotImplementedError], which is not a [JavaTypeError], instead of
    returning.  The arguments are indeed never looked at. *)
Theorem constructor_call_check_types_raises instantiated_type args :
  check_types (JavaConstructorCall instantiated_type args)
  = Raise (NotImplementedError
             "JavaConstructorCall must override check_types()")
  /\ ~ valid (JavaConstructorCall instantiated_type args)
  /\ validated (JavaConstructorCall instantiated_type args)
     = [JavaConstructorCall instantiated_type args].
Proof.
  split; [reflexivity |]. split; [| reflexivity].
  unfold valid. cbn. discriminate.
Qed.

(** What the loop reports at a first mismatch.  In a call whose receiver
    validates, whose method resolves and whose argument count matches, if
    the first mismatch is at position [k] and the arguments at positions
    [0..k] validate, [check_types] raises [JavaTypeMismatchError] with the
    message that lists the declared parameter types and the actual argument
    types of positions [0..k] only, the lists as filled when the loop stops.
    These are the full sequences when [k] is the last position. *)
Theorem method_call_first_mismatch receiver m args rt sig k :
  resolves_to receiver m rt sig ->
  length args = length (parameter_types sig) ->
  first_mismatch args (parameter_types sig) = Some k ->
  Forall valid (take (S k) args) ->
  check_types (JavaMethodCall receiver m args)
  = Raise (JavaTypeMismatchError (prefix_mismatch_message rt m sig args k))
  /\ (S k = length args ->
      prefix_mismatch_message rt m sig args k
      = full_mismatch_message rt m sig args).
Proof.
  intros Hres Hlen Hk Hv. split.
  - rewrite <- check_types_tr_erase.
    rewrite (method_call_mismatch_run _ _ _ _ _ _ Hres Hlen Hk Hv).
    reflexivity.
  - intros Hlast. unfold prefix_mismatch_message, full_mismatch_message.
    rewrite !take_ge by lia. reflexivity.
Qed.

(** C3. In a call whose receiver validates and whose method resolves, an
    argument count different from the parameter count makes [check_types]
    raise [JavaArgumentCountError], whatever the arguments are.  Its message
    is ["Wrong number of arguments for T.m(): expected p, got a"] with the
    name [T] of the receiver's type, the method name [m], and the decimal
    numerals of the number [p] of declared parameters and of the number [a]
    of arguments.  No argument is validated: the nodes validated are the
    call and those of the receiver. *)
Theorem method_call_arity_first receiver m args rt sig :
  resolves_to receiver m rt sig ->
  length args <> length (parameter_types sig) ->
  check_types (JavaMethodCall receiver m args)
  = Raise (JavaArgumentCountError
             ("Wrong number of arguments for " ++ type_name rt ++ "." ++ m
                ++ "(): expected "
                ++ NilEmpty.string_of_uint
                     (Nat.to_uint (length (parameter_types sig)))
                ++ ", got "
                ++ NilEmpty.string_of_uint (Nat.to_uint (length args))))
  /\ validated (JavaMethodCall receiver m args)
     = JavaMethodCall receiver m args :: validated receiver.
Proof.
  intros Hres Hlen.
  assert (Nat.eqb (length (parameter_types sig)) (length args) = false) as E
    by (apply Nat.eqb_neq; congruence).
  split.
  - rewrite (check_types_resolved _ _ _ _ _ Hres), E. reflexivity.
  - unfold validated at 1.
    rewrite (check_types_tr_resolved _ _ _ _ _ Hres), E. cbn.
    rewrite app_nil_r. reflexivity.
Qed.

(** C4. If [e] validates and its static type is a subtype of the declared
    type of [v], the assignment of [e] to [v] validates and its static type
    is the declared type of [v]. *)
Theorem assignment_typing v e :
  valid e ->
  conforms e (declared_type v) = true ->
  check_types (JavaAssignment v e) = Ok tt
  /\ static_type (JavaAssignment v e) = Ok (declared_type v).
Proof.
  intros Hv Hc. apply conforms_true in Hc as (t & Ht & Hsub).
  split; [| reflexivity].
  cbn. rewrite Hv, Ht. cbn. rewrite Hsub. reflexivity.
Qed.

(** C5. [check_types] of an assignment validates the left-hand side, then
    the right-hand side (an exception of the right-hand side leaves the
    method), then compares the static types: when the type of the
    right-hand side is not a subtype of the declared type of the variable it
    raises [JavaTypeMismatchError] with the message
    ["Cannot assign R to variable x of type D"], where [R] is the name of
    the value's type, [x] the name of the variable and [D] the name of the
    declared type. *)
Theorem assignment_check_types lhs rhs :
  validated (JavaAssignment lhs rhs)
  = JavaAssignment lhs rhs :: EVariable lhs :: validated rhs
  /\ (forall x, check_types rhs = Raise x ->
       check_types (JavaAssignment lhs rhs) = Raise x)
  /\ (valid rhs ->
       exists rhs_type,
         static_type rhs = Ok rhs_type
         /\ check_types (JavaAssignment lhs rhs)
            = if is_subtype_of rhs_type (declared_type lhs) then Ok tt
              else Raise (JavaTypeMismatchError
                            ("Cannot assign " ++ type_name rhs_type
                               ++ " to variable " ++ name lhs
                               ++ " of type "
                               ++ type_name (declared_type lhs)))).
Proof.
  split; [| split].
  - unfold validated at 1. cbn [check_types_tr].
    unfold enter, JavaVariable_check_types_tr, enter.
    rewrite !traced_bind_Ok, check_types_tr_pair. cbn [fst app].
    destruct (check_types rhs) as [[] | x]; [| reflexivity].
    rewrite traced_bind_Ok. unfold quiet, JavaVariable_static_type.
    rewrite traced_bind_Ok. cbn [fst].
    destruct (static_type rhs) as [t | x]; [| cbn; rewrite app_nil_r; reflexivity].
    rewrite traced_bind_Ok.
    destruct (is_subtype_of t (declared_type lhs)); cbn;
      rewrite app_nil_r; reflexivity.
  - intros x Hx. cbn. rewrite Hx. reflexivity.
  - intros Hv. destruct (valid_static_type _ Hv) as [t Ht].
    exists t. split; [exact Ht |].
    cbn. rewrite Hv, Ht. cbn.
    destruct (is_subtype_of t (declared_type lhs)); reflexivity.
Qed.

(** C6. [static_type] of an assignment is the declared type of the variable
    on the left, for every right-hand side: the right-hand side is not
    examined, so the answer is the same when it is ill-typed. *)
Theorem assignment_static_type lhs rhs :
  static_type (JavaAssignment lhs rhs) = Ok (declared_type lhs).
Proof. reflexivity. Qed.

(** C7. [static_type] of a call looks the method up on the static type of
    the receiver and returns its return type; a failed lookup is the
    [NoSuchJavaMethod] of [get_method].  Nothing is assumed of the validity
    of the receiver, and the arguments do not matter. *)
Theorem method_call_static_type receiver m args rt :
  static_type receiver = Ok rt ->
  static_type (JavaMethodCall receiver m args)
  = match get_method rt m with
    | inr method => Ok (return_type method)
    | inl msg => Raise (NoSuchJavaMethod msg)
    end.
Proof.
  intros Ht. cbn. rewrite Ht. cbn. unfold lookup_method.
  destruct (get_method rt m); reflexivity.
Qed.

(** C9. When a call with matching argument count stops at a mismatch at
    position [k], the arguments behind [k] are not validated: the nodes
    validated are the call, those of the receiver and those of the
    arguments [0..k], and both this record and the single exception raised
    are the same for every choice of the later arguments. *)
Theorem method_call_stops_at_mismatch receiver m args rt sig k later :
  resolves_to receiver m rt sig ->
  length args = length (parameter_types sig) ->
  first_mismatch args (parameter_types sig) = Some k ->
  Forall valid (take (S k) args) ->
  length later = length (drop (S k) args) ->
  validated (JavaMethodCall receiver m args)
  = JavaMethodCall receiver m args
      :: validated receiver ++ concat (validated <$> take (S k) args)
  /\ validated (JavaMethodCall receiver m (take (S k) args ++ later))
     = JavaMethodCall receiver m (take (S k) args ++ later)
         :: validated receiver ++ concat (validated <$> take (S k) args)
  /\ check_types (JavaMethodCall receiver m (take (S k) args ++ later))
     = check_types (JavaMethodCall receiver m args)
  /\ check_types (JavaMethodCall receiver m args)
     = Raise (JavaTypeMismatchError (prefix_mismatch_message rt m sig args k)).
Proof.
  intros Hres Hlen Hk Hv Hlater.
  pose proof (method_call_mismatch_run _ _ _ _ _ _ Hres Hlen Hk Hv) as Hrun.
  assert (S k <= length args) as Hle.
  { apply first_mismatch_prefix in Hk as (_ & a & t & Ha & _).
    apply lookup_lt_Some in Ha. lia. }
  assert (take (S k) (take (S k) args ++ later) = take (S k) args) as Htake.
  { rewrite take_app_le by (rewrite length_take; lia).
    rewrite take_take. f_equal. lia. }
  assert (check_types_tr (JavaMethodCall receiver m (take (S k) args ++ later))
          = (JavaMethodCall receiver m (take (S k) args ++ later)
               :: validated receiver ++ concat (validated <$> take (S k) args),
             Raise (JavaTypeMismatchError
                      (prefix_mismatch_message rt m sig args k)))) as Hrun'.
  { rewrite (method_call_mismatch_run _ _ _ rt sig k Hres).
    - unfold prefix_mismatch_message. rewrite Htake. reflexivity.
    - rewrite length_app, length_take, Hlater, length_drop. lia.
    - apply first_mismatch_later, Hk.
    - rewrite Htake. exact Hv. }
  unfold validated. rewrite <- !check_types_tr_erase, Hrun, Hrun'.
  repeat split.
Qed.

(** C10. In a call with matching argument count the loop takes the arguments
    in order and validates each before comparing its type: when the
    arguments before position [i] are accepted and the validation of the
    argument at [i] raises, the call raises that exception, whether or not
    the type at [i] conforms and whatever the later arguments are; the
    nodes validated are those of the arguments [0..i], in order. *)
Theorem method_call_argument_error_first receiver m args rt sig i arg x :
  resolves_to receiver m rt sig ->
  length args = length (parameter_types sig) ->
  Forall2 accepted (take i args) (take i (parameter_types sig)) ->
  args !! i = Some arg ->
  check_types arg = Raise x ->
  check_types (JavaMethodCall receiver m args) = Raise x
  /\ validated (JavaMethodCall receiver m args)
     = JavaMethodCall receiver m args
         :: validated receiver ++ concat (validated <$> take (S i) args).
Proof.
  intros Hres Hlen Hpre Ha Hx.
  destruct (lookup_lt_is_Some_2 (parameter_types sig) i) as [t Ht].
  { rewrite <- Hlen. eapply lookup_lt_Some, Ha. }
  assert (check_types_tr (JavaMethodCall receiver m args)
          = (JavaMethodCall receiver m args
               :: validated receiver ++ concat (validated <$> take (S i) args),
             Raise x)) as Hrun.
  { rewrite (check_types_tr_resolved _ _ _ _ _ Hres), Hlen, Nat.eqb_refl.
    cbn [negb]. rewrite (check_args_tr_reach _ _ _ _ _ _ _ Hpre Ha Ht).
    rewrite (check_args_tr_head_failure _ _ _ _ _ _ _ _ _ Hx).
    cbn zeta. cbn [fst snd]. rewrite (validated_take_S _ _ _ Ha).
    reflexivity. }
  unfold validated. rewrite <- check_types_tr_erase, Hrun. split; reflexivity.
Qed.

End Facts.

(** ** The methods over the store *)

Section StoreFacts.
Context `{TM : TypeModel}.

Lemma preserves_ret {A : Type} (a : A) : preserves_store (ret_h a).
Proof. intros h h' r [= <- _]. reflexivity. Qed.

Lemma preserves_raise {A : Type} x : preserves_store (@raise_h _ A x).
Proof. intros h h' r [= <- _]. reflexivity. Qed.

Lemma preserves_lift {A : Type} (r : result A) : preserves_store (lift_h r).
Proof. intros h h' r' [= <- _]. reflexivity. Qed.

Lemma preserves_deref l : preserves_store (deref l).
Proof.
  intros h h' r. unfold deref. destruct (h !! l); [| discriminate].
  intros [= <- _]. reflexivity.
Qed.

Lemma preserves_bind {A B : Type} (c : comp A) (k : A -> comp B) :
  preserves_store c -> (forall a, preserves_store (k a)) ->
  preserves_store (bind_h c k).
Proof.
  intros Hc Hk h h' r. unfold bind_h.
  destruct (c h) as [[h1 [a | x]] |] eqn:E; [| | discriminate].
  - apply Hc in E as ->. apply Hk.
  - apply Hc in E as ->. intros [= <- _]. reflexivity.
Qed.

Lemma preserves_get_name o : preserves_store (get_name o).
Proof. destruct o; cbn; auto using preserves_ret, preserves_raise. Qed.

Create HintDb frame.
#[local] Hint Resolve preserves_ret preserves_raise preserves_lift
  preserves_deref preserves_get_name : frame.

Lemma static_type_h_preserves fuel :
  forall l, preserves_store (static_type_h fuel l).
Proof.
  induction fuel as [| fuel IH]; intros l; cbn [static_type_h].
  - intros h h' r. discriminate.
  - apply preserves_bind; [auto with frame |].
    intros [n t | v t | lhs rhs | receiver m args | t args |];
      auto with frame.
    apply preserves_bind; [apply IH |]. intros rt.
    apply preserves_bind; auto with frame.
Qed.

Lemma check_args_h_preserves check static rn m :
  (forall l, preserves_store (check l)) ->
  (forall l, preserves_store (static l)) ->
  forall args expected_types names actuals,
    preserves_store
      (check_args_h check static rn m args expected_types names actuals).
Proof.
  intros Hcheck Hstatic.
  induction args as [| arg args IH]; intros [| t ts] names actuals;
    cbn [check_args_h]; auto with frame.
  apply preserves_bind; [apply Hcheck |]. intros _.
  apply preserves_bind; [apply Hstatic |]. intros actual.
  destruct (negb _); [auto with frame | apply IH].
Qed.

Lemma check_types_h_preserves fuel :
  forall l, preserves_store (check_types_h fuel l).
Proof.
  induction fuel as [| fuel IH]; intros l; cbn [check_types_h].
  - intros h h' r. discriminate.
  - apply preserves_bind; [auto with frame |].
    intros [n t | v t | lhs rhs | receiver m args | t args |];
      auto with frame.
    + apply preserves_bind; [apply IH |]. intros _.
      apply preserves_bind; [apply IH |]. intros _.
      apply preserves_bind; [apply static_type_h_preserves |]. intros lt.
      apply preserves_bind; [apply static_type_h_preserves |]. intros rt.
      destruct (negb _); [| auto with frame].
      apply preserves_bind; [auto with frame |]. intros o.
      apply preserves_bind; auto with frame.
    + apply preserves_bind; [apply IH |]. intros _.
      apply preserves_bind; [apply static_type_h_preserves |]. intros rt.
      apply preserves_bind; [auto with frame |]. intros sig. cbn zeta.
      destruct (negb _); [auto with frame |].
      apply check_args_h_preserves;
        [apply IH | apply static_type_h_preserves].
Qed.

(** On a store that holds a tree, the methods over the store compute what
    the methods on the tree compute. *)

Lemma static_type_h_variable h l v fuel :
  repr h l (EVariable v) -> 0 < fuel ->
  static_type_h fuel l h = Some (h, Ok (declared_type v)).
Proof.
  intros Hr Hf. inversion Hr as [? ? Hl | | | | |]; subst.
  destruct fuel; [lia |]. cbn [static_type_h]. unfold bind_h, deref.
  rewrite Hl. reflexivity.
Qed.

Lemma check_types_h_variable h l v fuel :
  repr h l (EVariable v) -> 0 < fuel ->
  check_types_h fuel l h = Some (h, Ok tt).
Proof.
  intros Hr Hf. inversion Hr as [? ? Hl | | | | |]; subst.
  destruct fuel; [lia |]. cbn [check_types_h]. unfold bind_h, deref.
  rewrite Hl. reflexivity.
Qed.

Lemma static_type_h_repr h e :
  forall l fuel, repr h l e -> height e < fuel ->
                 static_type_h fuel l h = Some (h, static_type e).
Proof.
  induction e as [v | value type | lhs rhs _ | receiver m args IH _
                  | t args _] using JavaExpression_nested_ind;
    intros l fuel Hr Hf.
  - apply static_type_h_variable; [assumption | lia].
  - inversion Hr as [| ? ? ? Hl | | | | ? Hl]; subst;
      (destruct fuel; [lia |]); cbn [static_type_h]; unfold bind_h, deref;
      rewrite Hl; reflexivity.
  - inversion Hr as [| | ? al ar ? ? Hl Hlhs Hrhs | | |]; subst.
    destruct fuel; [lia |]. cbn [static_type_h height] in *.
    unfold bind_h at 1, deref. rewrite Hl.
    apply static_type_h_variable; [assumption | lia].
  - inversion Hr as [| | | ? ar ? ls ? ? Hl Hrec Hargs | |]; subst.
    destruct fuel; [lia |]. cbn [static_type_h height static_type] in *.
    unfold bind_h at 1, deref. rewrite Hl.
    unfold bind_h at 1. rewrite (IH ar fuel Hrec) by lia.
    destruct (static_type receiver) as [rt | x]; [| reflexivity].
    rewrite bind_Ok. unfold bind_h, lift_h.
    destruct (lookup_method rt m); reflexivity.
  - inversion Hr as [| | | | ? ? ls ? Hl Hargs |]; subst.
    destruct fuel; [lia |]. cbn [static_type_h]. unfold bind_h, deref.
    rewrite Hl. reflexivity.
Qed.

Lemma check_args_h_repr h fuel rn m ls es :
  Forall2 (fun l e =>
             check_types_h fuel l h = Some (h, check_types e)
             /\ static_type_h fuel l h = Some (h, static_type e)) ls es ->
  forall expected_types names actuals,
    check_args_h (check_types_h fuel) (static_type_h fuel) rn m
                 ls expected_types names actuals h
    = Some (h, check_args check_types rn m es expected_types names actuals).
Proof.
  induction 1 as [| l e ls es [Hc Hs] _ IH]; intros [| t ts] names actuals;
    try reflexivity.
  cbn [check_args_h check_args]. unfold bind_h at 1. rewrite Hc.
  destruct (check_types e) as [[] | x]; [| reflexivity].
  rewrite bind_Ok. unfold bind_h at 1. rewrite Hs.
  destruct (static_type e) as [actual | x]; [| reflexivity].
  rewrite bind_Ok.
  destruct (is_subtype_of actual t); cbn [negb]; [apply IH | reflexivity].
Qed.

Lemma height_args_lt args n :
  list_max (map height args) < n -> Forall (fun a => height a < n) args.
Proof.
  intros H. apply Forall_forall. intros a Ha.
  assert (Forall (fun k => k <= list_max (map height args))
                 (map height args)) as Hle by (apply list_max_le; lia).
  rewrite Forall_forall in Hle.
  specialize (Hle (height a)). 
  assert (height a <= list_max (map height args)); [| lia].
  apply Hle. apply list_elem_of_In, in_map, list_elem_of_In, Ha.
Qed.

Lemma check_types_h_repr h e :
  forall l fuel, repr h l e -> height e < fuel ->
                 check_types_h fuel l h = Some (h, check_types e).
Proof.
  induction e as [v | value type | lhs rhs IH | receiver m args IH IHargs
                  | t args _] using JavaExpression_nested_ind;
    intros l fuel Hr Hf.
  - apply (check_types_h_variable _ _ v); [assumption | lia].
  - inversion Hr as [| ? ? ? Hl | | | | ? Hl]; subst;
      (destruct fuel; [lia |]); cbn [check_types_h]; unfold bind_h, deref;
      rewrite Hl; reflexivity.
  - inversion Hr as [| | ? al ar ? ? Hl Hlhs Hrhs | | |]; subst.
    destruct fuel; [lia |]. cbn [check_types_h height check_types] in *.
    unfold bind_h at 1, deref at 1. rewrite Hl.
    unfold bind_h at 1.
    rewrite (check_types_h_variable _ _ _ _ Hlhs) by lia.
    unfold JavaVariable_check_types. rewrite bind_Ok.
    unfold bind_h at 1. rewrite (IH ar fuel Hrhs) by lia.
    destruct (check_types rhs) as [[] | x]; [| reflexivity].
    rewrite bind_Ok. unfold bind_h at 1.
    rewrite (static_type_h_variable _ _ _ _ Hlhs) by lia.
    unfold JavaVariable_static_type. rewrite bind_Ok.
    unfold bind_h at 1. rewrite (static_type_h_repr _ _ _ _ Hrhs) by lia.
    destruct (static_type rhs) as [rt | x]; [| reflexivity].
    rewrite bind_Ok.
    destruct (is_subtype_of rt (declared_type lhs)); cbn [negb];
      [reflexivity |].
    inversion Hlhs as [? ? Hv | | | | |]; subst.
    unfold bind_h, deref. rewrite Hv. reflexivity.
  - inversion Hr as [| | | ? ar ? ls ? ? Hl Hrec Hargs | |]; subst.
    destruct fuel; [lia |]. cbn [check_types_h height check_types] in *.
    unfold bind_h at 1, deref. rewrite Hl.
    unfold bind_h at 1. rewrite (IH ar fuel Hrec) by lia.
    destruct (check_types receiver) as [[] | x]; [| reflexivity].
    rewrite bind_Ok. unfold bind_h at 1.
    rewrite (static_type_h_repr _ _ _ _ Hrec) by lia.
    destruct (static_type receiver) as [rt | x]; [| reflexivity].
    rewrite bind_Ok. unfold bind_h at 1, lift_h.
    destruct (lookup_method rt m) as [sig | x]; [| reflexivity].
    rewrite bind_Ok. cbn zeta.
    assert (length ls = length args) as ->
        by (eapply Forall2_length; eassumption).
    destruct (negb _); [reflexivity |].
    apply check_args_h_repr.
    assert (Forall (fun a => height a < fuel) args) as Hh
        by (apply height_args_lt; lia).
    clear -Hargs IHargs Hh.
    induction Hargs as [| a e ls es Hae _ IHF]; [constructor |].
    inversion IHargs; subst. inversion Hh; subst.
    constructor; [| auto].
    split; [auto | apply static_type_h_repr; assumption].
  - inversion Hr as [| | | | ? ? ls ? Hl Hargs |]; subst.
    destruct fuel; [lia |]. cbn [check_types_h]. unfold bind_h, deref.
    rewrite Hl. reflexivity.
Qed.

(** Every tree can be constructed, in any store, and the store then holds
    it; what was in the store stays. *)

Lemma new_object_spec o h :
  h ⊆ snd (new_object o h)
  /\ snd (new_object o h) !! fst (new_object o h) = Some o.
Proof.
  unfold new_object. cbn. split.
  - apply insert_subseteq. apply not_elem_of_dom, is_fresh.
  - apply lookup_insert_eq.
Qed.

Lemma repr_mono h h' :
  h ⊆ h' -> forall e l, repr h l e -> repr h' l e.
Proof.
  intros Hsub e.
  induction e as [v | value type | lhs rhs IH | receiver m args IH IHargs
                  | t args IHargs] using JavaExpression_nested_ind;
    intros l Hr.
  - inversion Hr as [? ? Hl | | | | |]; subst.
    constructor. eapply lookup_weaken; eassumption.
  - inversion Hr as [| ? ? ? Hl | | | | ? Hl]; subst;
      [apply repr_literal | apply repr_null_literal];
      eapply lookup_weaken; eassumption.
  - inversion Hr as [| | ? al ar ? ? Hl Hlhs Hrhs | | |]; subst.
    eapply repr_assignment; [eapply lookup_weaken; eassumption | | auto].
    inversion Hlhs as [? ? Hv | | | | |]; subst.
    constructor. eapply lookup_weaken; eassumption.
  - inversion Hr as [| | | ? ar ? ls ? ? Hl Hrec Hargs | |]; subst.
    eapply repr_method_call; [eapply lookup_weaken; eassumption | auto |].
    clear -Hargs IHargs.
    induction Hargs as [| a e ls es Hae _ IHF]; [constructor |].
    inversion IHargs; subst. constructor; auto.
  - inversion Hr as [| | | | ? ? ls ? Hl Hargs |]; subst.
    eapply repr_constructor_call; [eapply lookup_weaken; eassumption |].
    clear -Hargs IHargs.
    induction Hargs as [| a e ls es Hae _ IHF]; [constructor |].
    inversion IHargs; subst. constructor; auto.
Qed.

Lemma alloc_all_spec es :
  Forall (fun e => forall h, h ⊆ snd (alloc e h)
                             /\ repr (snd (alloc e h)) (fst (alloc e h)) e)
         es ->
  forall h, h ⊆ snd (alloc_all es h)
            /\ Forall2 (repr (snd (alloc_all es h)))
                       (fst (alloc_all es h)) es.
Proof.
  induction 1 as [| e es He _ IH]; intros h; cbn [alloc_all].
  - split; [reflexivity | constructor].
  - destruct (He h) as [Hsub Hr].
    destruct (alloc e h) as [l h1]. cbn [fst snd] in *.
    destruct (IH h1) as [Hsub' Hrs].
    destruct (alloc_all es h1) as [ls h2]. cbn [fst snd] in *.
    split; [etrans; eassumption |].
    constructor; [eapply repr_mono; eassumption | assumption].
Qed.

Lemma alloc_spec e :
  forall h, h ⊆ snd (alloc e h) /\ repr (snd (alloc e h)) (fst (alloc e h)) e.
Proof.
  induction e as [v | value type | lhs rhs IH | receiver m args IH IHargs
                  | t args IHargs] using JavaExpression_nested_ind;
    intros h.
  - cbn [alloc]. destruct (new_object_spec (OVariable (name v) (declared_type v)) h).
    split; [assumption | constructor; assumption].
  - cbn [alloc]. destruct (new_object_spec (OLiteral value type) h).
    split; [assumption | constructor; assumption].
  - cbn [alloc].
    destruct (new_object_spec (OVariable (name lhs) (declared_type lhs)) h)
      as [Hs1 Hl1].
    destruct (new_object (OVariable (name lhs) (declared_type lhs)) h)
      as [l1 h1]. cbn [fst snd] in *.
    destruct (IH h1) as [Hs2 Hr2].
    destruct (alloc rhs h1) as [l2 h2]. cbn [fst snd] in *.
    destruct (new_object_spec (OAssignment l1 l2) h2) as [Hs3 Hl3].
    split; [etrans; [eassumption | etrans; eassumption] |].
    eapply repr_assignment; [exact Hl3 | |].
    + constructor. eapply lookup_weaken; [exact Hl1 | etrans; eassumption].
    + eapply repr_mono; eassumption.
  - cbn [alloc]. fold alloc_all.
    destruct (IH h) as [Hs1 Hr1].
    destruct (alloc receiver h) as [l1 h1]. cbn [fst snd] in *.
    destruct (alloc_all_spec args IHargs h1) as [Hs2 Hr2].
    destruct (alloc_all args h1) as [ls h2]. cbn [fst snd] in *.
    destruct (new_object_spec (OMethodCall l1 m ls) h2) as [Hs3 Hl3].
    split; [etrans; [eassumption | etrans; eassumption] |].
    eapply repr_method_call; [exact Hl3 | |].
    + eapply repr_mono; [| eassumption]. etrans; eassumption.
    + eapply Forall2_impl; [exact Hr2 |].
      intros a e. apply repr_mono. assumption.
  - cbn [alloc]. fold alloc_all.
    destruct (alloc_all_spec args IHargs h) as [Hs2 Hr2].
    destruct (alloc_all args h) as [ls h2]. cbn [fst snd] in *.
    destruct (new_object_spec (OConstructorCall t ls) h2) as [Hs3 Hl3].
    split; [etrans; eassumption |].
    eapply repr_constructor_call; [exact Hl3 |].
    eapply Forall2_impl; [exact Hr2 |].
    intros a e. apply repr_mono. assumption.
Qed.

(** The methods on a freshly constructed tree. *)
Corollary methods_on_constructed_tree e h :
  let '(l, h') := alloc e h in
  check_types_h (S (height e)) l h' = Some (h', check_types e)
  /\ static_type_h (S (height e)) l h' = Some (h', static_type e).
Proof.
  destruct (alloc_spec e h) as [_ Hr].
  destruct (alloc e h) as [l h']. cbn [fst snd] in Hr.
  split; [apply check_types_h_repr | apply static_type_h_repr];
    (assumption || lia).
Qed.

(** C8. On a store that holds the tree [e] at [l], [check_types] and
    [static_type] run to completion, return or raise what the methods on
    the tree do, and hand back the store unchanged, so no attribute of any
    node has been assigned; a successful [check_types] returns the unit
    value.  On any store at all, a completed run hands back the store it
    was given.  The type model is the interface [TypeModel], which the
    methods can only read. *)
Theorem methods_leave_store_unchanged h l e fuel :
  repr h l e ->
  height e < fuel ->
  check_types_h fuel l h = Some (h, check_types e)
  /\ static_type_h fuel l h = Some (h, static_type e)
  /\ (forall n a, preserves_store (check_types_h n a)
                  /\ preserves_store (static_type_h n a)).
Proof.
  intros Hr Hf. split; [apply check_types_h_repr; assumption |].
  split; [apply static_type_h_repr; assumption |].
  intros n a. split;
    [apply check_types_h_preserves | apply static_type_h_preserves].
Qed.

End StoreFacts.

(** ** The claims on the sample universe *)


(** The three end-to-end examples: [x = 5] with [x] an [int];
    [s.length2()] on a [String]; [foo.bar(1, 2)] with [bar(int)]. *)
Example assignment_of_int_validates :
  check_types (JavaAssignment Sample.x (Sample.lit "5" Sample.Int)) = Ok tt
  /\ static_type (JavaAssignment Sample.x (Sample.lit "5" Sample.Int))
     = Ok Sample.Int.
Proof. split; reflexivity. Qed.

Example undeclared_method_raises :
  check_types (JavaMethodCall (EVariable Sample.s) "length2" [])
  = Raise (NoSuchJavaMethod "String has no method named length2").
Proof. reflexivity. Qed.

Example too_many_arguments_raises :
  check_types (JavaMethodCall (EVariable Sample.foo) "bar"
                 [Sample.lit "1" Sample.Int; Sample.lit "2" Sample.Int])
  = Raise (JavaArgumentCountError
             "Wrong number of arguments for Foo.bar(): expected 1, got 2").
Proof. reflexivity. Qed.

(** The static type of an assignment does not depend on its right-hand
    side: [x = "a"] does not validate and [x = s.length2()] has a
    right-hand side without static type, and both have type [int]. *)
Example assignment_static_type_of_invalid :
  static_type Sample.bad_assignment = Ok Sample.Int
  /\ check_types Sample.bad_assignment
     = Raise (JavaTypeMismatchError
                "Cannot assign String to variable x of type int")
  /\ static_type (JavaMethodCall (EVariable Sample.s) "length2" [])
     = Raise (NoSuchJavaMethod "String has no method named length2")
  /\ static_type (JavaAssignment Sample.x
                    (JavaMethodCall (EVariable Sample.s) "length2" []))
     = Ok Sample.Int.
Proof. repeat split. Qed.

(** [new Foo()] does not validate, alone or inside another expression. *)
Example new_foo_raises :
  check_types Sample.new_foo
  = Raise (NotImplementedError
             "JavaConstructorCall must override check_types()")
  /\ check_types (JavaAssignment Sample.foo Sample.new_foo)
     = Raise (NotImplementedError
                "JavaConstructorCall must override check_types()")
  /\ is_JavaTypeError (NotImplementedError
                "JavaConstructorCall must override check_types()") = false.
Proof. repeat split. Qed.

(** C2 (the code departs from the claim). [foo.move("a", 2)], where [move]
    takes two [int]s: the count matches, both arguments validate and the
    first mismatch is at position 0.  [check_types] raises
    [JavaTypeMismatchError], but its message says that [move] expects
    arguments of type [(int)] and got [(String)]: the two lists stop at the
    mismatch, and are not the full sequences [(int, int)] and
    [(String, int)]. *)
Theorem first_mismatch_message_is_truncated :
  resolves_to (EVariable Sample.foo) "move" Sample.Foo Sample.move
  /\ length Sample.move_a_2 = length (parameter_types Sample.move)
  /\ Forall valid Sample.move_a_2
  /\ first_mismatch Sample.move_a_2 (parameter_types Sample.move) = Some 0
  /\ check_types (JavaMethodCall (EVariable Sample.foo) "move"
                                 Sample.move_a_2)
     = Raise (JavaTypeMismatchError
          "Foo.move() expects arguments of type (int), but got (String)")
  /\ full_mismatch_message Sample.Foo "move" Sample.move Sample.move_a_2
     = "Foo.move() expects arguments of type (int, int), but got (String, int)".
Proof.
  split; [repeat split |]. split; [reflexivity |].
  split; [repeat constructor |]. repeat split.
Qed.

(** Hence no call-independent statement with the full sequences holds. *)
Lemma first_mismatch_message_not_full :
  ~ (forall receiver m args rt sig k,
        resolves_to receiver m rt sig ->
        length args = length (parameter_types sig) ->
        first_mismatch args (parameter_types sig) = Some k ->
        Forall valid args ->
        check_types (JavaMethodCall receiver m args)
        = Raise (JavaTypeMismatchError
                   (full_mismatch_message rt m sig args))).
Proof.
  intros H.
  specialize (H (EVariable Sample.foo) "move" Sample.move_a_2
                Sample.Foo Sample.move 0).
  assert (check_types (JavaMethodCall (EVariable Sample.foo) "move"
                                      Sample.move_a_2)
          = Raise (JavaTypeMismatchError
               "Foo.move() expects arguments of type (int), but got (String)"))
    as E by reflexivity.
  rewrite E in H.
  assert (Raise (A := unit) (JavaTypeMismatchError
            "Foo.move() expects arguments of type (int), but got (String)")
          = Raise (JavaTypeMismatchError
          "Foo.move() expects arguments of type (int, int), but got (String, int)"))
    as Habs.
  { apply H.
    - repeat split.
    - reflexivity.
    - reflexivity.
    - repeat constructor. }
  discriminate Habs.
Qed.

Lemma method_call_first_mismatch_witness :
  resolves_to (EVariable Sample.foo) "move" Sample.Foo Sample.move
  /\ length Sample.move_a_2 = length (parameter_types Sample.move)
  /\ first_mismatch Sample.move_a_2 (parameter_types Sample.move) = Some 0
  /\ Forall valid (take 1 Sample.move_a_2)
  /\ check_types (JavaMethodCall (EVariable Sample.foo) "move"
                                 Sample.move_a_2)
     = Raise (JavaTypeMismatchError
                (prefix_mismatch_message Sample.Foo "move" Sample.move
                                         Sample.move_a_2 0)).
Proof.
  assert (resolves_to (EVariable Sample.foo) "move" Sample.Foo Sample.move)
    as H1 by (repeat split).
  assert (length Sample.move_a_2 = length (parameter_types Sample.move))
    as H2 by reflexivity.
  assert (first_mismatch Sample.move_a_2 (parameter_types Sample.move)
          = Some 0) as H3 by reflexivity.
  assert (Forall valid (take 1 Sample.move_a_2)) as H4
    by (repeat constructor).
  refine (conj H1 (conj H2 (conj H3 (conj H4 _)))).
  exact (proj1 (method_call_first_mismatch _ _ _ _ _ _ H1 H2 H3 H4)).
Defined.

Lemma method_call_arity_first_witness :
  resolves_to (EVariable Sample.foo) "bar" Sample.Foo Sample.bar
  /\ length Sample.move_1_bad <> length (parameter_types Sample.bar)
  /\ check_types (JavaMethodCall (EVariable Sample.foo) "bar"
                                 Sample.move_1_bad)
     = Raise (JavaArgumentCountError
                "Wrong number of arguments for Foo.bar(): expected 1, got 2")
  /\ validated (JavaMethodCall (EVariable Sample.foo) "bar"
                               Sample.move_1_bad)
     = [JavaMethodCall (EVariable Sample.foo) "bar" Sample.move_1_bad;
        EVariable Sample.foo].
Proof.
  assert (resolves_to (EVariable Sample.foo) "bar" Sample.Foo Sample.bar)
    as H1 by (repeat split).
  assert (length Sample.move_1_bad <> length (parameter_types Sample.bar))
    as H2 by (cbn; lia).
  refine (conj H1 (conj H2 _)).
  exact (method_call_arity_first _ _ _ _ _ H1 H2).
Defined.

Lemma assignment_typing_witness :
  valid JavaNullLiteral
  /\ conforms JavaNullLiteral (declared_type Sample.s) = true
  /\ check_types (JavaAssignment Sample.s JavaNullLiteral) = Ok tt
  /\ static_type (JavaAssignment Sample.s JavaNullLiteral) = Ok Sample.String.
Proof.
  assert (valid JavaNullLiteral) as H1 by reflexivity.
  assert (conforms JavaNullLiteral (declared_type Sample.s) = true)
    as H2 by reflexivity.
  refine (conj H1 (conj H2 _)).
  exact (assignment_typing Sample.s JavaNullLiteral H1 H2).
Defined.

Lemma assignment_check_types_witness :
  valid (Sample.lit "a" Sample.String)
  /\ check_types Sample.bad_assignment
     = Raise (JavaTypeMismatchError
                "Cannot assign String to variable x of type int")
  /\ check_types (JavaAssignment Sample.s Sample.new_foo)
     = Raise (NotImplementedError
                "JavaConstructorCall must override check_types()").
Proof.
  assert (valid (Sample.lit "a" Sample.String)) as H1 by reflexivity.
  split; [assumption |].
  destruct (assignment_check_types Sample.x (Sample.lit "a" Sample.String))
    as (_ & _ & Hcmp).
  destruct (assignment_check_types Sample.s Sample.new_foo)
    as (_ & Hrhs & _).
  split.
  - destruct (Hcmp H1) as (rhs_type & Ht & Hc).
    injection Ht as <-. exact Hc.
  - apply Hrhs. reflexivity.
Defined.

Lemma method_call_static_type_witness :
  static_type Sample.new_foo = Ok Sample.Foo
  /\ static_type (JavaMethodCall Sample.new_foo "bar" [Sample.bad_assignment])
     = Ok Sample.Void
  /\ static_type (JavaMethodCall Sample.new_foo "baz" [])
     = Raise (NoSuchJavaMethod "Foo has no method named baz").
Proof.
  assert (static_type Sample.new_foo = Ok Sample.Foo) as H1 by reflexivity.
  split; [assumption |]. split.
  - exact (method_call_static_type Sample.new_foo "bar"
             [Sample.bad_assignment] Sample.Foo H1).
  - exact (method_call_static_type Sample.new_foo "baz" [] Sample.Foo H1).
Defined.

Lemma methods_leave_store_unchanged_witness :
  repr Sample.store_bad_assignment 1%positive Sample.bad_assignment
  /\ height Sample.bad_assignment < 2
  /\ check_types_h 2 1%positive Sample.store_bad_assignment
     = Some (Sample.store_bad_assignment,
             Raise (JavaTypeMismatchError
                      "Cannot assign String to variable x of type int"))
  /\ static_type_h 2 1%positive Sample.store_bad_assignment
     = Some (Sample.store_bad_assignment, Ok Sample.Int).
Proof.
  assert (repr Sample.store_bad_assignment 1%positive Sample.bad_assignment)
    as H1.
  { eapply repr_assignment.
    - reflexivity.
    - apply repr_variable. reflexivity.
    - apply repr_literal. reflexivity. }
  assert (height Sample.bad_assignment < 2) as H2 by (cbn; lia).
  refine (conj H1 (conj H2 _)).
  destruct (methods_leave_store_unchanged _ _ _ _ H1 H2) as (Hc & Hs & _).
  split; [exact Hc | exact Hs].
Defined.

Lemma method_call_stops_at_mismatch_witness :
  resolves_to (EVariable Sample.foo) "move" Sample.Foo Sample.move
  /\ length Sample.move_a_2 = length (parameter_types Sample.move)
  /\ first_mismatch Sample.move_a_2 (parameter_types Sample.move) = Some 0
  /\ Forall valid (take 1 Sample.move_a_2)
  /\ length [Sample.new_foo] = length (drop 1 Sample.move_a_2)
  /\ validated (JavaMethodCall (EVariable Sample.foo) "move"
                   [Sample.lit "a" Sample.String; Sample.new_foo])
     = [JavaMethodCall (EVariable Sample.foo) "move"
          [Sample.lit "a" Sample.String; Sample.new_foo];
        EVariable Sample.foo; Sample.lit "a" Sample.String]
  /\ check_types (JavaMethodCall (EVariable Sample.foo) "move"
                     [Sample.lit "a" Sample.String; Sample.new_foo])
     = Raise (JavaTypeMismatchError
                "Foo.move() expects arguments of type (int), but got (String)").
Proof.
  assert (resolves_to (EVariable Sample.foo) "move" Sample.Foo Sample.move)
    as H1 by (repeat split).
  assert (length Sample.move_a_2 = length (parameter_types Sample.move))
    as H2 by reflexivity.
  assert (first_mismatch Sample.move_a_2 (parameter_types Sample.move)
          = Some 0) as H3 by reflexivity.
  assert (Forall valid (take 1 Sample.move_a_2)) as H4
    by (repeat constructor).
  assert (length [Sample.new_foo] = length (drop 1 Sample.move_a_2))
    as H5 by reflexivity.
  refine (conj H1 (conj H2 (conj H3 (conj H4 (conj H5 _))))).
  destruct (method_call_stops_at_mismatch _ _ _ _ _ _ _ H1 H2 H3 H4 H5)
    as (_ & Hrec & Hsame & Hraise).
  split; [exact Hrec |].
  exact (eq_trans Hsame Hraise).
Defined.

Lemma method_call_argument_error_first_witness :
  resolves_to (EVariable Sample.foo) "move" Sample.Foo Sample.move
  /\ length Sample.move_1_bad = length (parameter_types Sample.move)
  /\ Forall2 accepted (take 1 Sample.move_1_bad)
             (take 1 (parameter_types Sample.move))
  /\ Sample.move_1_bad !! 1 = Some Sample.bad_assignment
  /\ check_types Sample.bad_assignment
     = Raise (JavaTypeMismatchError
                "Cannot assign String to variable x of type int")
  /\ check_types (JavaMethodCall (EVariable Sample.foo) "move"
                                 Sample.move_1_bad)
     = Raise (JavaTypeMismatchError
                "Cannot assign String to variable x of type int").
Proof.
  assert (resolves_to (EVariable Sample.foo) "move" Sample.Foo Sample.move)
    as H1 by (repeat split).
  assert (length Sample.move_1_bad = length (parameter_types Sample.move))
    as H2 by reflexivity.
  assert (Forall2 accepted (take 1 Sample.move_1_bad)
                  (take 1 (parameter_types Sample.move))) as H3
    by (repeat constructor).
  assert (Sample.move_1_bad !! 1 = Some Sample.bad_assignment)
    as H4 by reflexivity.
  assert (check_types Sample.bad_assignment
          = Raise (JavaTypeMismatchError
                     "Cannot assign String to variable x of type int"))
    as H5 by reflexivity.
  refine (conj H1 (conj H2 (conj H3 (conj H4 (conj H5 _))))).
  exact (proj1 (method_call_argument_error_first _ _ _ _ _ _ _ _
                  H1 H2 H3 H4 H5)).
Defined.

(** * Further properties of the methods *)

Section MoreFacts.
Context `{TM : TypeModel}.

#[local] Arguments lookup_method : simpl never.

(** ** One iteration of the loop, and one call, in full *)

Lemma check_args_tr_cons rn m arg expected_type args expected_types
      names actuals :
  check_args_tr check_types_tr rn m (arg :: args)
                (expected_type :: expected_types) names actuals
  = match check_types arg with
    | Raise x => (validated arg, Raise x)
    | Ok _ =>
        match static_type arg with
        | Raise x => (validated arg, Raise x)
        | Ok actual_type =>
            if is_subtype_of actual_type expected_type then
              let r := check_args_tr check_types_tr rn m args expected_types
                         (names ++ [type_name expected_type])
                         (actuals ++ [type_name actual_type]) in
              (validated arg ++ fst r, snd r)
            else
              (validated arg,
               Raise (JavaTypeMismatchError
                        (mismatch_message rn m
                           (names ++ [type_name expected_type])
                           (actuals ++ [type_name actual_type]))))
        end
    end.
Proof.
  cbn [check_args_tr]. rewrite check_types_tr_pair.
  destruct (check_types arg) as [[] | x]; [| reflexivity].
  rewrite traced_bind_Ok. unfold quiet.
  destruct (static_type arg) as [actual | x].
  - rewrite traced_bind_Ok.
    destruct (is_subtype_of actual expected_type); cbn [negb fst snd].
    + reflexivity.
    + rewrite !app_nil_r. reflexivity.
  - cbn. rewrite app_nil_r. reflexivity.
Qed.

Lemma check_types_tr_call receiver m args :
  check_types_tr (JavaMethodCall receiver m args)
  = let call := JavaMethodCall receiver m args in
    match check_types receiver with
    | Raise x => (call :: validated receiver, Raise x)
    | Ok _ =>
        match static_type receiver with
        | Raise x => (call :: validated receiver, Raise x)
        | Ok rt =>
            match get_method rt m with
            | inl msg =>
                (call :: validated receiver, Raise (NoSuchJavaMethod msg))
            | inr sig =>
                if Nat.eqb (length (parameter_types sig)) (length args) then
                  let r := check_args_tr check_types_tr (type_name rt) m
                             args (parameter_types sig) [] [] in
                  (call :: validated receiver ++ fst r, snd r)
                else
                  (call :: validated receiver,
                   Raise (JavaArgumentCountError
                            (count_message (type_name rt) m
                               (length (parameter_types sig))
                               (length args))))
            end
        end
    end.
Proof.
  cbn zeta. cbn [check_types_tr]. unfold enter.
  rewrite traced_bind_Ok, check_types_tr_pair.
  destruct (check_types receiver) as [[] | x]; [| reflexivity].
  rewrite traced_bind_Ok. unfold quiet.
  destruct (static_type receiver) as [rt | x];
    [| cbn; rewrite app_nil_r; reflexivity].
  rewrite traced_bind_Ok. unfold lookup_method.
  destruct (get_method rt m) as [msg | sig];
    [cbn; rewrite app_nil_r; reflexivity |].
  rewrite traced_bind_Ok.
  destruct (Nat.eqb _ _); cbn [negb fst snd app].
  - reflexivity.
  - rewrite !app_nil_r. reflexivity.
Qed.

Lemma check_types_tr_assignment lhs rhs :
  check_types_tr (JavaAssignment lhs rhs)
  = (JavaAssignment lhs rhs :: EVariable lhs :: validated rhs,
     check_types (JavaAssignment lhs rhs)).
Proof.
  rewrite check_types_tr_pair. f_equal.
  unfold validated at 1. cbn [check_types_tr].
  unfold enter, JavaVariable_check_types_tr, enter.
  rewrite !traced_bind_Ok, check_types_tr_pair. cbn [fst app].
  destruct (check_types rhs) as [[] | x]; [| reflexivity].
  rewrite traced_bind_Ok. unfold quiet, JavaVariable_static_type.
  rewrite traced_bind_Ok. cbn [fst].
  destruct (static_type rhs) as [t | x];
    [| cbn; rewrite app_nil_r; reflexivity].
  rewrite traced_bind_Ok.
  destruct (is_subtype_of t (declared_type lhs)); cbn;
    rewrite app_nil_r; reflexivity.
Qed.

(** ** Failures in front of the arguments *)

(** A failed method lookup leaves [check_types] with the exception of
    [get_method], whatever the arguments and their number are; no argument
    is validated. *)
Theorem check_types_lookup_failure receiver m args rt msg :
  valid receiver ->
  static_type receiver = Ok rt ->
  get_method rt m = inl msg ->
  check_types (JavaMethodCall receiver m args) = Raise (NoSuchJavaMethod msg)
  /\ validated (JavaMethodCall receiver m args)
     = JavaMethodCall receiver m args :: validated receiver.
Proof.
  intros Hv Ht Hm. unfold validated at 1.
  rewrite <- check_types_tr_erase, check_types_tr_call. cbn zeta.
  rewrite Hv, Ht, Hm. split; reflexivity.
Qed.

(** An exception of the receiver's validation is the exception of the call:
    the method is not looked up and no argument is validated. *)
Theorem check_types_receiver_failure receiver m args x :
  check_types receiver = Raise x ->
  check_types (JavaMethodCall receiver m args) = Raise x
  /\ validated (JavaMethodCall receiver m args)
     = JavaMethodCall receiver m args :: validated receiver.
Proof.
  intros Hx. unfold validated at 1.
  rewrite <- check_types_tr_erase, check_types_tr_call. cbn zeta.
  rewrite Hx. split; reflexivity.
Qed.

(** ** When a node validates *)

Lemma check_args_ok_iff rn m args :
  forall expected_types names actuals,
    length args = length expected_types ->
    (check_args check_types rn m args expected_types names actuals = Ok tt
     <-> Forall2 accepted args expected_types).
Proof.
  induction args as [| arg args IH]; intros [| t ts] names actuals Hlen;
    try discriminate.
  - split; [constructor | reflexivity].
  - cbn [check_args]. split.
    + intros H.
      destruct (check_types arg) as [[] | x] eqn:Hc; [| discriminate].
      rewrite bind_Ok in H.
      destruct (static_type arg) as [actual | x] eqn:Hs; [| discriminate].
      rewrite bind_Ok in H. cbn zeta in H.
      destruct (is_subtype_of actual t) eqn:Hsub; [| discriminate].
      cbn [negb] in H. constructor.
      * split; [exact Hc |]. unfold conforms. rewrite Hs. exact Hsub.
      * eapply IH; [| exact H]. cbn in Hlen. lia.
    + intros H. inversion H as [| ? ? ? ? [Hv Hc] Hrest]; subst.
      apply conforms_true in Hc as (actual & Hs & Hsub).
      rewrite Hv, bind_Ok, Hs, bind_Ok. cbn zeta. rewrite Hsub.
      cbn [negb]. apply IH; [cbn in Hlen; lia | exact Hrest].
Qed.

Lemma valid_method_call_inv receiver m args :
  valid (JavaMethodCall receiver m args) ->
  exists rt sig,
    resolves_to receiver m rt sig
    /\ Forall2 accepted args (parameter_types sig)
    /\ static_type (JavaMethodCall receiver m args) = Ok (return_type sig).
Proof.
  intros H. unfold valid in H. cbn [check_types] in H.
  destruct (check_types receiver) as [[] | x] eqn:Hc; [| discriminate].
  rewrite bind_Ok in H.
  destruct (static_type receiver) as [rt | x] eqn:Hs; [| discriminate].
  rewrite bind_Ok in H. unfold lookup_method in H.
  destruct (get_method rt m) as [msg | sig] eqn:Hm; [discriminate |].
  rewrite bind_Ok in H. cbn zeta in H.
  destruct (Nat.eqb _ _) eqn:Hlen; [| discriminate].
  cbn [negb] in H. apply Nat.eqb_eq in Hlen.
  exists rt, sig. split; [repeat split; assumption |]. split.
  - eapply check_args_ok_iff; [| exact H]. lia.
  - cbn [static_type]. rewrite Hs, bind_Ok. unfold lookup_method.
    rewrite Hm. reflexivity.
Qed.

Lemma valid_assignment_inv lhs rhs :
  valid (JavaAssignment lhs rhs) ->
  valid rhs /\ conforms rhs (declared_type lhs) = true.
Proof.
  intros H. unfold valid in H. cbn [check_types] in H.
  unfold JavaVariable_check_types, JavaVariable_static_type in H.
  rewrite bind_Ok in H.
  destruct (check_types rhs) as [[] | x] eqn:Hc; [| discriminate].
  rewrite !bind_Ok in H.
  destruct (static_type rhs) as [t | x] eqn:Hs; [| discriminate].
  rewrite bind_Ok in H.
  destruct (is_subtype_of t (declared_type lhs)) eqn:Hsub; [| discriminate].
  split; [exact Hc |]. unfold conforms. rewrite Hs. exact Hsub.
Qed.

Lemma constructor_call_not_valid t args :
  ~ valid (JavaConstructorCall t args).
Proof. unfold valid. cbn. discriminate. Qed.

(** A call validates exactly when its receiver validates, the method is
    found on the receiver's static type, and the arguments, as many as the
    parameters, each validate and have a static type that is a subtype of
    the parameter's.  Its static type is then the method's return type. *)
Theorem valid_method_call_iff receiver m args :
  valid (JavaMethodCall receiver m args)
  <-> exists rt sig,
      resolves_to receiver m rt sig
      /\ Forall2 accepted args (parameter_types sig)
      /\ static_type (JavaMethodCall receiver m args) = Ok (return_type sig).
Proof.
  split; [apply valid_method_call_inv |].
  intros (rt & sig & Hres & Hargs & _). unfold valid.
  rewrite (check_types_resolved _ _ _ _ _ Hres).
  pose proof (Forall2_length _ _ _ Hargs) as Hlen.
  rewrite <- Hlen, Nat.eqb_refl. cbn [negb].
  apply check_args_ok_iff; [exact Hlen | exact Hargs].
Qed.

(** An assignment validates exactly when its right-hand side validates and
    has a static type that is a subtype of the variable's declared type. *)
Theorem valid_assignment_iff lhs rhs :
  valid (JavaAssignment lhs rhs)
  <-> valid rhs /\ conforms rhs (declared_type lhs) = true.
Proof.
  split; [apply valid_assignment_inv |].
  intros [Hv Hc]. apply conforms_true in Hc as (t & Hs & Hsub).
  unfold valid. cbn [check_types].
  unfold JavaVariable_check_types, JavaVariable_static_type.
  rewrite bind_Ok, Hv, !bind_Ok, Hs, bind_Ok, Hsub. reflexivity.
Qed.

(** ** The walk over the tree *)

Lemma check_args_tr_walk rn m args :
  Forall (fun a => validated a `prefix_of` preorder a
                   /\ (valid a -> validated a = preorder a)) args ->
  forall expected_types names actuals,
    let r := check_args_tr check_types_tr rn m args expected_types
                           names actuals in
    fst r `prefix_of` concat (map preorder args)
    /\ (length args = length expected_types -> snd r = Ok tt ->
        fst r = concat (map preorder args)).
Proof.
  induction 1 as [| arg args [Hpre Hfull] _ IH];
    intros [| t ts] names actuals; cbn zeta.
  - split; [apply prefix_nil | reflexivity].
  - split; [apply prefix_nil | reflexivity].
  - split; [apply prefix_nil | discriminate].
  - rewrite check_args_tr_cons. cbn [map concat].
    destruct (check_types arg) as [[] | x] eqn:Hc.
    2:{ split; [apply prefix_app_r, Hpre | discriminate]. }
    rewrite (Hfull Hc).
    destruct (static_type arg) as [actual | x].
    2:{ split; [apply prefix_app_r; reflexivity | discriminate]. }
    destruct (is_subtype_of actual t).
    2:{ split; [apply prefix_app_r; reflexivity | discriminate]. }
    cbn zeta. cbn [fst snd].
    destruct (IH ts (names ++ [type_name t]) (actuals ++ [type_name actual]))
      as [IHpre IHfull].
    split; [apply prefix_app, IHpre |].
    intros Hlen Hok. f_equal. apply IHfull; [cbn in Hlen; lia | exact Hok].
Qed.

Lemma validated_walk e :
  validated e `prefix_of` preorder e
  /\ (valid e -> validated e = preorder e).
Proof.
  induction e as [v | value type | lhs rhs IH | receiver m args IH IHargs
                  | t args _] using JavaExpression_nested_ind.
  - split; reflexivity.
  - split; reflexivity.
  - destruct IH as [Hpre Hfull].
    unfold validated. rewrite check_types_tr_assignment. fold (validated rhs).
    cbn [fst preorder]. split.
    + do 2 apply prefix_cons. exact Hpre.
    + intros Hv. apply valid_assignment_inv in Hv as [Hv _].
      rewrite (Hfull Hv). reflexivity.
  - destruct IH as [Hpre Hfull].
    unfold validated, valid.
    rewrite <- (check_types_tr_erase (JavaMethodCall receiver m args)).
    rewrite check_types_tr_call. cbn zeta. cbn [preorder].
    destruct (check_types receiver) as [[] | x] eqn:Hc.
    2:{ split; [apply prefix_cons, prefix_app_r, Hpre | discriminate]. }
    rewrite (Hfull Hc).
    destruct (static_type receiver) as [rt | x].
    2:{ split; [apply prefix_cons, prefix_app_r; reflexivity | discriminate]. }
    destruct (get_method rt m) as [msg | sig].
    { split; [apply prefix_cons, prefix_app_r; reflexivity | discriminate]. }
    destruct (Nat.eqb _ _) eqn:Hlen.
    2:{ split; [apply prefix_cons, prefix_app_r; reflexivity | discriminate]. }
    apply Nat.eqb_eq in Hlen. cbn [fst snd].
    destruct (check_args_tr_walk (type_name rt) m args IHargs
                                 (parameter_types sig) [] [])
      as [Hapre Hafull].
    split; [apply prefix_cons, prefix_app, Hapre |].
    intros Hok. do 2 f_equal. apply Hafull; [lia | exact Hok].
  - split.
    + exists (concat (map preorder args)). reflexivity.
    + intros Hv. destruct (constructor_call_not_valid _ _ Hv).
Qed.

(** [check_types] walks the tree parent first and children from left to
    right, and stops where it raises: the nodes it validates are an initial
    part of that enumeration of the tree, and all of it when the tree
    validates. *)
Theorem check_types_walks_preorder e :
  validated e `prefix_of` preorder e
  /\ (valid e -> validated e = preorder e).
Proof. apply validated_walk. Qed.

(** Every node of a tree that validates validates on its own and has a
    static type; in particular the tree contains no constructor call. *)
Theorem valid_subexpressions e :
  valid e ->
  Forall valid (preorder e)
  /\ Forall (fun n => exists t, static_type n = Ok t) (preorder e)
  /\ Forall (fun n => is_constructor_call n = false) (preorder e).
Proof.
  intros Hv.
  assert (Forall valid (preorder e)) as Hall.
  { revert Hv.
    induction e as [v | value type | lhs rhs IH | receiver m args IH IHargs
                    | t args _] using JavaExpression_nested_ind; intros Hv.
    - repeat constructor.
    - repeat constructor.
    - cbn [preorder]. constructor; [exact Hv |].
      constructor; [reflexivity |].
      apply IH. apply valid_assignment_inv in Hv as [Hv _]. exact Hv.
    - cbn [preorder]. constructor; [exact Hv |].
      apply valid_method_call_inv in Hv
        as (rt & sig & (Hr & _ & _) & Hargs & _).
      apply Forall_app. split; [apply IH, Hr |].
      clear -Hargs IHargs. revert IHargs.
      generalize (parameter_types sig) as ts. intros ts.
      induction Hargs as [| a t' args ts' [Hva _] _ IHF]; intros IHargs;
        cbn [map concat]; [constructor |].
      inversion IHargs; subst. apply Forall_app. split; auto.
    - destruct (constructor_call_not_valid _ _ Hv). }
  split; [exact Hall |]. split.
  - eapply Forall_impl; [exact Hall |]. apply valid_static_type.
  - eapply Forall_impl; [exact Hall |].
    intros [| | | | t args] Hn; try reflexivity.
    destruct (constructor_call_not_valid _ _ Hn).
Qed.

(** ** The exceptions of [check_types] *)

Lemma check_args_raises rn m args :
  Forall (fun a => forall x, check_types a = Raise x ->
                             raised_by_check_types x) args ->
  forall expected_types names actuals x,
    check_args check_types rn m args expected_types names actuals = Raise x ->
    raised_by_check_types x.
Proof.
  induction 1 as [| arg args Harg _ IH]; intros [| t ts] names actuals x;
    try discriminate.
  cbn [check_args].
  destruct (check_types arg) as [[] | y] eqn:Hc.
  2:{ intros [= <-]. apply Harg. reflexivity. }
  rewrite bind_Ok.
  destruct (static_type arg) as [actual | y] eqn:Hs.
  2:{ intros [= <-].
      apply static_type_raises_only_NoSuchJavaMethod in Hs as [msg ->].
      exact I. }
  rewrite bind_Ok. cbn zeta.
  destruct (is_subtype_of actual t); cbn [negb].
  - apply IH.
  - intros [= <-]. exact I.
Qed.

Lemma check_types_raises e x :
  check_types e = Raise x -> raised_by_check_types x.
Proof.
  revert x.
  induction e as [v | value type | lhs rhs IH | receiver m args IH IHargs
                  | t args _] using JavaExpression_nested_ind; intros x.
  - discriminate.
  - discriminate.
  - cbn [check_types].
    unfold JavaVariable_check_types, JavaVariable_static_type.
    rewrite bind_Ok.
    destruct (check_types rhs) as [[] | y] eqn:Hc.
    2:{ intros [= <-]. apply IH. reflexivity. }
    rewrite !bind_Ok.
    destruct (static_type rhs) as [rt | y] eqn:Hs.
    2:{ intros [= <-].
        apply static_type_raises_only_NoSuchJavaMethod in Hs as [msg ->].
        exact I. }
    rewrite bind_Ok.
    destruct (is_subtype_of rt (declared_type lhs)); cbn [negb];
      [discriminate |].
    intros [= <-]. exact I.
  - cbn [check_types].
    destruct (check_types receiver) as [[] | y] eqn:Hc.
    2:{ intros [= <-]. apply IH. reflexivity. }
    rewrite bind_Ok.
    destruct (static_type receiver) as [rt | y] eqn:Hs.
    2:{ intros [= <-].
        apply static_type_raises_only_NoSuchJavaMethod in Hs as [msg ->].
        exact I. }
    rewrite bind_Ok. unfold lookup_method.
    destruct (get_method rt m) as [msg | sig].
    { intros [= <-]. exact I. }
    rewrite bind_Ok. cbn zeta.
    destruct (Nat.eqb _ _); cbn [negb].
    + apply check_args_raises, IHargs.
    + intros [= <-]. exact I.
  - intros [= <-]. reflexivity.
Qed.

(** [check_types] raises one of [NoSuchJavaMethod], [JavaTypeMismatchError],
    [JavaArgumentCountError], or the [NotImplementedError] of the base class
    with the class name [JavaConstructorCall]; it never raises
    [JavaIllegalInstantiationError], which the module declares. *)
Theorem check_types_exceptions e x :
  check_types e = Raise x ->
  raised_by_check_types x
  /\ (forall msg, x <> JavaIllegalInstantiationError msg).
Proof.
  intros H. apply check_types_raises in H. split; [exact H |].
  intros msg ->. exact H.
Qed.

(** Where the [NotImplementedError] comes from. *)

Lemma last_app_r {A : Type} (l1 l2 : list A) (y : A) :
  last l2 = Some y -> last (l1 ++ l2) = Some y.
Proof. intros H. rewrite last_app, H. reflexivity. Qed.

Lemma check_args_tr_not_implemented rn m args :
  Forall (fun a => forall msg, check_types a = Raise (NotImplementedError msg)
                               -> stops_at_constructor_call a) args ->
  forall expected_types names actuals msg,
    let r := check_args_tr check_types_tr rn m args expected_types
                           names actuals in
    snd r = Raise (NotImplementedError msg) ->
    exists t cargs, last (fst r) = Some (JavaConstructorCall t cargs).
Proof.
  induction 1 as [| arg args Harg _ IH]; intros [| t ts] names actuals msg;
    cbn zeta; try discriminate.
  rewrite check_args_tr_cons.
  destruct (check_types arg) as [[] | y] eqn:Hc.
  2:{ cbn [fst snd]. intros [= ->]. exact (Harg _ eq_refl). }
  destruct (static_type arg) as [actual | y] eqn:Hs.
  2:{ cbn [fst snd]. intros [= ->].
      apply static_type_raises_only_NoSuchJavaMethod in Hs as [? [=]]. }
  destruct (is_subtype_of actual t); [| discriminate].
  cbn zeta. cbn [fst snd]. intros Hr.
  destruct (IH _ _ _ _ Hr) as (t' & cargs & Hlast).
  exists t', cargs. apply last_app_r, Hlast.
Qed.

Lemma not_implemented_stops e :
  forall msg, check_types e = Raise (NotImplementedError msg) ->
              stops_at_constructor_call e.
Proof.
  induction e as [v | value type | lhs rhs IH | receiver m args IH IHargs
                  | t args _] using JavaExpression_nested_ind; intros msg.
  - discriminate.
  - discriminate.
  - intros H. unfold stops_at_constructor_call, validated.
    rewrite check_types_tr_assignment. cbn [fst].
    assert (exists msg', check_types rhs = Raise (NotImplementedError msg'))
      as [msg' Hrhs].
    { revert H. cbn [check_types].
      unfold JavaVariable_check_types, JavaVariable_static_type.
      rewrite bind_Ok.
      destruct (check_types rhs) as [[] | y]; [| intros [= ->]; eauto].
      rewrite !bind_Ok.
      destruct (static_type rhs) as [rt | y] eqn:Hs.
      2:{ intros [= ->].
          apply static_type_raises_only_NoSuchJavaMethod in Hs as [? [=]]. }
      rewrite bind_Ok. destruct (is_subtype_of rt _); discriminate. }
    destruct (IH _ Hrhs) as (t & cargs & Hlast).
    exists t, cargs.
    change (last ([JavaAssignment lhs rhs; EVariable lhs] ++ validated rhs)
            = Some (JavaConstructorCall t cargs)).
    apply last_app_r, Hlast.
  - intros H. unfold stops_at_constructor_call, validated.
    rewrite <- check_types_tr_erase in H. revert H.
    rewrite check_types_tr_call. cbn zeta.
    destruct (check_types receiver) as [[] | y] eqn:Hc.
    2:{ cbn [fst snd]. intros [= ->].
        destruct (IH _ eq_refl) as (t & cargs & Hlast). exists t, cargs.
        change (last ([JavaMethodCall receiver m args] ++ validated receiver)
                = Some (JavaConstructorCall t cargs)).
        apply last_app_r, Hlast. }
    destruct (static_type receiver) as [rt | y] eqn:Hs.
    2:{ cbn [fst snd]. intros [= ->].
        apply static_type_raises_only_NoSuchJavaMethod in Hs as [? [=]]. }
    destruct (get_method rt m) as [msg' | sig]; [discriminate |].
    destruct (Nat.eqb _ _); [| discriminate].
    cbn [fst snd]. intros Hr.
    destruct (check_args_tr_not_implemented _ _ _ IHargs _ _ _ _ Hr)
      as (t & cargs & Hlast).
    exists t, cargs.
    change (last ((JavaMethodCall receiver m args :: validated receiver)
                  ++ fst (check_args_tr check_types_tr (type_name rt) m args
                                        (parameter_types sig) [] []))
            = Some (JavaConstructorCall t cargs)).
    apply last_app_r, Hlast.
  - intros _. exists t, args. reflexivity.
Qed.

Lemma check_args_tr_constructor_call rn m args n :
  is_constructor_call n = true ->
  Forall (fun a => n ∈ validated a ->
                   check_types a
                   = Raise (NotImplementedError constructor_call_message))
         args ->
  forall expected_types names actuals,
    let r := check_args_tr check_types_tr rn m args expected_types
                           names actuals in
    n ∈ fst r ->
    snd r = Raise (NotImplementedError constructor_call_message).
Proof.
  intros Hn.
  induction 1 as [| arg args Harg _ IH]; intros [| t ts] names actuals;
    cbn zeta; try (intros Hin; inversion Hin; fail).
  rewrite check_args_tr_cons.
  destruct (check_types arg) as [[] | y] eqn:Hc.
  2:{ cbn [fst snd]. intros Hin. exact (Harg Hin). }
  destruct (static_type arg) as [actual | y].
  2:{ cbn [fst snd]. intros Hin. apply Harg in Hin. discriminate. }
  destruct (is_subtype_of actual t).
  2:{ cbn [fst snd]. intros Hin. apply Harg in Hin. discriminate. }
  cbn zeta. cbn [fst snd]. intros Hin.
  apply elem_of_app in Hin as [Hin | Hin].
  - apply Harg in Hin. discriminate.
  - apply IH, Hin.
Qed.

Lemma constructor_call_validated_raises e n :
  is_constructor_call n = true ->
  n ∈ validated e ->
  check_types e = Raise (NotImplementedError constructor_call_message).
Proof.
  intros Hn.
  induction e as [v | value type | lhs rhs IH | receiver m args IH IHargs
                  | t args _] using JavaExpression_nested_ind.
  - intros Hin. apply list_elem_of_singleton in Hin as ->. discriminate.
  - intros Hin. apply list_elem_of_singleton in Hin as ->. discriminate.
  - unfold validated at 1. rewrite check_types_tr_assignment. cbn [fst].
    intros Hin.
    apply elem_of_cons in Hin as [-> | Hin]; [discriminate |].
    apply elem_of_cons in Hin as [-> | Hin]; [discriminate |].
    cbn [check_types]. rewrite (IH Hin). reflexivity.
  - unfold validated at 1.
    rewrite <- (check_types_tr_erase (JavaMethodCall receiver m args)).
    rewrite check_types_tr_call. cbn zeta.
    destruct (check_types receiver) as [[] | y] eqn:Hc.
    2:{ cbn [fst snd]. intros Hin.
        apply elem_of_cons in Hin as [-> | Hin]; [discriminate |].
        exact (IH Hin). }
    assert (n ∈ validated receiver -> False) as Hnot
        by (intros Hin; apply IH in Hin; discriminate).
    destruct (static_type receiver) as [rt | y].
    2:{ cbn [fst snd]. intros Hin.
        apply elem_of_cons in Hin as [-> | Hin]; [discriminate |].
        destruct (Hnot Hin). }
    destruct (get_method rt m) as [msg' | sig].
    { cbn [fst snd]. intros Hin.
      apply elem_of_cons in Hin as [-> | Hin]; [discriminate |].
      destruct (Hnot Hin). }
    destruct (Nat.eqb _ _).
    2:{ cbn [fst snd]. intros Hin.
        apply elem_of_cons in Hin as [-> | Hin]; [discriminate |].
        destruct (Hnot Hin). }
    cbn [fst snd]. intros Hin.
    apply elem_of_cons in Hin as [-> | Hin]; [discriminate |].
    apply elem_of_app in Hin as [Hin | Hin]; [destruct (Hnot Hin) |].
    eapply check_args_tr_constructor_call; [exact Hn | exact IHargs | exact Hin].
  - intros _. reflexivity.
Qed.

(** [check_types] raises [NotImplementedError] exactly when the walk enters
    a constructor call, and the walk ends there: whenever a constructor call
    is among the nodes validated, it is the last of them and the exception
    is the one of the base class. *)
Theorem not_implemented_iff_constructor_call_validated e :
  (check_types e = Raise (NotImplementedError constructor_call_message)
   <-> exists n, n ∈ validated e /\ is_constructor_call n = true)
  /\ (forall msg, check_types e = Raise (NotImplementedError msg) ->
       msg = constructor_call_message
       /\ exists t args,
           last (validated e) = Some (JavaConstructorCall t args)).
Proof.
  split; [split |].
  - intros H. destruct (not_implemented_stops _ _ H) as (t & args & Hlast).
    exists (JavaConstructorCall t args).
    split; [apply last_Some_elem_of, Hlast | reflexivity].
  - intros (n & Hin & Hn). eapply constructor_call_validated_raises; eassumption.
  - intros msg H. split.
    + apply check_types_raises in H. exact H.
    + apply (not_implemented_stops _ _ H).
Qed.

(** On a tree without constructor calls [check_types] does what its
    docstring says: it returns, or it raises a [JavaTypeError]. *)
Theorem constructor_free_raises_type_errors e x :
  Forall (fun n => is_constructor_call n = false) (preorder e) ->
  check_types e = Raise x ->
  is_JavaTypeError x = true.
Proof.
  intros Hfree H.
  pose proof (check_types_raises _ _ H) as Hx.
  destruct x as [msg | msg | msg | msg | msg | msg | msg];
    try reflexivity; try destruct Hx.
  destruct (not_implemented_stops _ _ H) as (t & args & Hlast).
  apply last_Some_elem_of in Hlast.
  apply (elem_of_prefix _ (preorder e)) in Hlast;
    [| apply validated_walk].
  rewrite Forall_forall in Hfree. apply Hfree in Hlast. discriminate.
Qed.

(** ** Failures of [static_type] *)

(** [static_type] fails only on a method call and only with the
    [NoSuchJavaMethod] of a failed lookup, and such a call does not
    validate: an expression that validates has a static type. *)
Theorem static_type_failure e x :
  static_type e = Raise x ->
  (exists receiver m args, e = JavaMethodCall receiver m args)
  /\ (exists msg, x = NoSuchJavaMethod msg)
  /\ ~ valid e.
Proof.
  intros H. split; [| split].
  - destruct e as [v | value type | lhs rhs | receiver m args | t args];
      try discriminate. eauto.
  - eapply static_type_raises_only_NoSuchJavaMethod, H.
  - intros Hv. apply valid_static_type in Hv as [t Ht]. congruence.
Qed.

(** ** What the outcome does not depend on *)

Lemma static_type_with_literal_values value e :
  static_type (with_literal_values value e) = static_type e.
Proof.
  induction e as [v | v' type | lhs rhs _ | receiver m args IH _ | t args _]
    using JavaExpression_nested_ind; try reflexivity.
  cbn [with_literal_values static_type]. rewrite IH. reflexivity.
Qed.

Lemma check_args_with_literal_values value rn m args :
  Forall (fun a => check_types (with_literal_values value a) = check_types a)
         args ->
  forall expected_types names actuals,
    check_args check_types rn m (map (with_literal_values value) args)
               expected_types names actuals
    = check_args check_types rn m args expected_types names actuals.
Proof.
  induction 1 as [| arg args Harg _ IH]; intros [| t ts] names actuals;
    try reflexivity.
  cbn [map check_args].
  rewrite Harg, static_type_with_literal_values.
  destruct (check_types arg) as [[] | x]; [| reflexivity]. rewrite !bind_Ok.
  destruct (static_type arg) as [actual | x]; [| reflexivity].
  rewrite !bind_Ok. cbn zeta.
  destruct (negb _); [reflexivity | apply IH].
Qed.

(** The text of a literal is never read: replacing the value of every
    literal of a tree changes neither what [check_types] returns or raises,
    message included, nor the static type. *)
Theorem literal_values_irrelevant value e :
  check_types (with_literal_values value e) = check_types e
  /\ static_type (with_literal_values value e) = static_type e.
Proof.
  split; [| apply static_type_with_literal_values].
  induction e as [v | v' type | lhs rhs IH | receiver m args IH IHargs
                  | t args _] using JavaExpression_nested_ind;
    try reflexivity.
  - cbn [with_literal_values check_types].
    rewrite IH, static_type_with_literal_values. reflexivity.
  - cbn [with_literal_values check_types].
    rewrite IH, static_type_with_literal_values, length_map.
    destruct (check_types receiver) as [[] | x]; [| reflexivity].
    rewrite !bind_Ok.
    destruct (static_type receiver) as [rt | x]; [| reflexivity].
    rewrite !bind_Ok.
    destruct (lookup_method rt m) as [sig | x]; [| reflexivity].
    rewrite !bind_Ok. cbn zeta.
    destruct (negb _); [reflexivity |].
    apply check_args_with_literal_values, IHargs.
Qed.

(** ** The message of a mismatch and [_names] *)

Lemma string_app_assoc (a b c : string) :
  ((a ++ b) ++ c = a ++ (b ++ c))%string.
Proof.
  induction a as [| ch a IH]; [reflexivity |].
  change (String ch ((a ++ b) ++ c) = String ch (a ++ (b ++ c)))%string.
  f_equal. exact IH.
Qed.

Lemma actual_type_names_static_types args :
  actual_type_names args = type_name <$> static_types args.
Proof.
  unfold actual_type_names, static_types.
  induction args as [| arg args IH]; [reflexivity |].
  cbn [omap list_omap]. destruct (static_type arg); cbn; rewrite IH;
    reflexivity.
Qed.

Lemma mismatch_message_names rn m (expected actual : list JavaType) :
  mismatch_message rn m (type_name <$> expected) (type_name <$> actual)
  = (rn ++ "." ++ m ++ "() expects arguments of type " ++ _names expected
        ++ ", but got " ++ _names actual)%string.
Proof.
  unfold mismatch_message, _names, name_of, JavaType_Named.
  rewrite !string_app_assoc. reflexivity.
Qed.

(** The two lists in the message of a mismatch at position [k] are printed
    as [_names] prints the declared parameter types of positions [0..k] and
    the static types of the arguments at positions [0..k]. *)
Theorem mismatch_message_uses_names receiver m args rt sig k :
  resolves_to receiver m rt sig ->
  length args = length (parameter_types sig) ->
  first_mismatch args (parameter_types sig) = Some k ->
  Forall valid (take (S k) args) ->
  check_types (JavaMethodCall receiver m args)
  = Raise (JavaTypeMismatchError
             (type_name rt ++ "." ++ m ++ "() expects arguments of type "
                ++ _names (take (S k) (parameter_types sig))
                ++ ", but got " ++ _names (static_types (take (S k) args)))).
Proof.
  intros Hres Hlen Hk Hv.
  rewrite <- check_types_tr_erase.
  rewrite (method_call_mismatch_run _ _ _ _ _ _ Hres Hlen Hk Hv).
  cbn [snd]. unfold prefix_mismatch_message.
  rewrite actual_type_names_static_types, mismatch_message_names.
  reflexivity.
Qed.

(** ** The indices of the loop *)

(** After the comparison of the two lengths the loop of the source, which
    reads [self.args[i]] and [expected_types[i]] for [i] below
    [len(expected_types)], only reads positions that exist: [check_types] of
    the call is the outcome of that loop and is never an [IndexError]. *)
Theorem indexed_loop_in_bounds receiver m args rt sig :
  resolves_to receiver m rt sig ->
  length args = length (parameter_types sig) ->
  check_types (JavaMethodCall receiver m args)
  = check_args_indexed check_types (type_name rt) m args
                       (parameter_types sig)
                       0 (length (parameter_types sig)) [] []
  /\ forall msg,
      check_types (JavaMethodCall receiver m args) <> Raise (IndexError msg).
Proof.
  intros Hres Hlen. split.
  - rewrite (check_types_resolved _ _ _ _ _ Hres), Hlen, Nat.eqb_refl.
    cbn [negb]. symmetry. apply check_args_indexed_eq, Hlen.
  - intros msg H. apply check_types_raises in H. exact H.
Qed.

End MoreFacts.

Section MoreStoreFacts.
Context `{TM : TypeModel}.

(** Constructing a tree in a store keeps every object that was there, and
    on the store obtained the two methods, run on the address of the root,
    return or raise what the methods of the tree do and hand that store
    back. *)
Theorem constructed_tree_round_trip e h :
  let '(l, h') := alloc e h in
  h ⊆ h'
  /\ repr h' l e
  /\ check_types_h (S (height e)) l h' = Some (h', check_types e)
  /\ static_type_h (S (height e)) l h' = Some (h', static_type e).
Proof.
  destruct (alloc_spec e h) as [Hsub Hr].
  destruct (alloc e h) as [l h']. cbn [fst snd] in *.
  split; [exact Hsub |]. split; [exact Hr |].
  split; [apply check_types_h_repr | apply static_type_h_repr];
    (assumption || lia).
Qed.

(** The attribute [name] of the left-hand side is read only to build the
    message of a mismatch.  An assignment object whose [lhs] is a literal,
    of class [JavaLiteral] or of its subclass [JavaNullLiteral], therefore
    validates when the types conform, and raises [AttributeError], not
    [JavaTypeMismatchError], when they do not; the message names the class
    of the object. *)
Theorem assignment_to_literal h l l_lhs l_rhs lhs_object cls type e rhs_type
        fuel :
  h !! l = Some (OAssignment l_lhs l_rhs) ->
  h !! l_lhs = Some lhs_object ->
  (exists value, lhs_object = OLiteral value type /\ cls = "JavaLiteral")
  \/ (lhs_object = ONullLiteral /\ type = NULL /\ cls = "JavaNullLiteral") ->
  repr h l_rhs e ->
  valid e ->
  static_type e = Ok rhs_type ->
  height e < fuel ->
  check_types_h (S fuel) l h
  = Some (h, if is_subtype_of rhs_type type then Ok tt
             else Raise (AttributeError
                           ("'" ++ cls ++ "' object has no attribute 'name'"))).
Proof.
  intros Hl Hlhs Hcls Hr Hv Ht Hf.
  assert (check_types_h fuel l_lhs h = Some (h, Ok tt)) as Hc_lhs.
  { destruct fuel; [lia |]. cbn [check_types_h]. unfold bind_h, deref.
    rewrite Hlhs.
    destruct Hcls as [(value & -> & _) | (-> & _ & _)]; reflexivity. }
  assert (static_type_h fuel l_lhs h = Some (h, Ok type)) as Hs_lhs.
  { destruct fuel; [lia |]. cbn [static_type_h]. unfold bind_h, deref.
    rewrite Hlhs.
    destruct Hcls as [(value & -> & _) | (-> & -> & _)]; reflexivity. }
  cbn [check_types_h]. unfold bind_h at 1, deref at 1. rewrite Hl.
  unfold bind_h at 1. rewrite Hc_lhs.
  unfold bind_h at 1. rewrite (check_types_h_repr _ _ _ _ Hr Hf), Hv.
  unfold bind_h at 1. rewrite Hs_lhs.
  unfold bind_h at 1. rewrite (static_type_h_repr _ _ _ _ Hr Hf), Ht.
  destruct (is_subtype_of rhs_type type); cbn [negb]; [reflexivity |].
  unfold bind_h, deref. rewrite Hlhs.
  destruct Hcls as [(value & -> & ->) | (-> & _ & ->)]; reflexivity.
Qed.

End MoreStoreFacts.

(** ** The further properties on the sample universe *)

Lemma check_types_lookup_failure_witness :
  valid (EVariable Sample.s)
  /\ static_type (EVariable Sample.s) = Ok Sample.String
  /\ get_method Sample.String "length2"
     = inl "String has no method named length2"
  /\ check_types (JavaMethodCall (EVariable Sample.s) "length2"
                                 [Sample.bad_assignment])
     = Raise (NoSuchJavaMethod "String has no method named length2")
  /\ validated (JavaMethodCall (EVariable Sample.s) "length2"
                               [Sample.bad_assignment])
     = [JavaMethodCall (EVariable Sample.s) "length2" [Sample.bad_assignment];
        EVariable Sample.s].
Proof.
  assert (valid (EVariable Sample.s)) as H1 by reflexivity.
  assert (static_type (EVariable Sample.s) = Ok Sample.String)
    as H2 by reflexivity.
  assert (get_method Sample.String "length2"
          = inl "String has no method named length2") as H3 by reflexivity.
  refine (conj H1 (conj H2 (conj H3 _))).
  exact (check_types_lookup_failure (EVariable Sample.s) "length2"
           [Sample.bad_assignment] Sample.String _ H1 H2 H3).
Defined.

Lemma check_types_receiver_failure_witness :
  check_types Sample.bad_assignment
  = Raise (JavaTypeMismatchError
             "Cannot assign String to variable x of type int")
  /\ check_types (JavaMethodCall Sample.bad_assignment "length2" [])
     = Raise (JavaTypeMismatchError
                "Cannot assign String to variable x of type int").
Proof.
  assert (check_types Sample.bad_assignment
          = Raise (JavaTypeMismatchError
                     "Cannot assign String to variable x of type int"))
    as H1 by reflexivity.
  refine (conj H1 _).
  exact (proj1 (check_types_receiver_failure Sample.bad_assignment "length2"
                  [] _ H1)).
Defined.

Lemma valid_method_call_iff_witness :
  valid Sample.bar_call
  /\ exists rt sig,
      resolves_to (EVariable Sample.foo) "bar" rt sig
      /\ Forall2 accepted [JavaAssignment Sample.x (Sample.lit "5" Sample.Int)]
                 (parameter_types sig)
      /\ static_type Sample.bar_call = Ok (return_type sig).
Proof.
  assert (valid Sample.bar_call) as H1 by reflexivity.
  refine (conj H1 _).
  exact (proj1 (valid_method_call_iff (EVariable Sample.foo) "bar"
                  [JavaAssignment Sample.x (Sample.lit "5" Sample.Int)]) H1).
Defined.

Lemma valid_assignment_iff_witness :
  valid (JavaAssignment Sample.s JavaNullLiteral)
  /\ valid JavaNullLiteral
  /\ conforms JavaNullLiteral (declared_type Sample.s) = true.
Proof.
  assert (valid (JavaAssignment Sample.s JavaNullLiteral)) as H1
    by reflexivity.
  refine (conj H1 _).
  exact (proj1 (valid_assignment_iff Sample.s JavaNullLiteral) H1).
Defined.

Lemma check_types_walks_preorder_witness :
  valid Sample.bar_call
  /\ validated Sample.bar_call = preorder Sample.bar_call.
Proof.
  assert (valid Sample.bar_call) as H1 by reflexivity.
  refine (conj H1 _).
  exact (proj2 (check_types_walks_preorder Sample.bar_call) H1).
Defined.

Lemma valid_subexpressions_witness :
  valid Sample.bar_call
  /\ Forall valid (preorder Sample.bar_call).
Proof.
  assert (valid Sample.bar_call) as H1 by reflexivity.
  refine (conj H1 _).
  exact (proj1 (valid_subexpressions Sample.bar_call H1)).
Defined.

Lemma check_types_exceptions_witness :
  check_types Sample.bad_assignment
  = Raise (JavaTypeMismatchError
             "Cannot assign String to variable x of type int")
  /\ raised_by_check_types
       (JavaTypeMismatchError
          "Cannot assign String to variable x of type int").
Proof.
  assert (check_types Sample.bad_assignment
          = Raise (JavaTypeMismatchError
                     "Cannot assign String to variable x of type int"))
    as H1 by reflexivity.
  refine (conj H1 _).
  exact (proj1 (check_types_exceptions Sample.bad_assignment _ H1)).
Defined.

Lemma not_implemented_iff_constructor_call_validated_witness :
  check_types (JavaMethodCall (EVariable Sample.foo) "bar" [Sample.new_foo])
  = Raise (NotImplementedError constructor_call_message)
  /\ exists n,
      n ∈ validated (JavaMethodCall (EVariable Sample.foo) "bar"
                                    [Sample.new_foo])
      /\ is_constructor_call n = true.
Proof.
  assert (check_types (JavaMethodCall (EVariable Sample.foo) "bar"
                                      [Sample.new_foo])
          = Raise (NotImplementedError constructor_call_message))
    as H1 by reflexivity.
  refine (conj H1 _).
  exact (proj1 (proj1 (not_implemented_iff_constructor_call_validated
                         (JavaMethodCall (EVariable Sample.foo) "bar"
                                         [Sample.new_foo]))) H1).
Defined.

Lemma constructor_free_raises_type_errors_witness :
  Forall (fun n => is_constructor_call n = false)
         (preorder (JavaMethodCall (EVariable Sample.foo) "bar" []))
  /\ check_types (JavaMethodCall (EVariable Sample.foo) "bar" [])
     = Raise (JavaArgumentCountError
                "Wrong number of arguments for Foo.bar(): expected 1, got 0")
  /\ is_JavaTypeError
       (JavaArgumentCountError
          "Wrong number of arguments for Foo.bar(): expected 1, got 0") = true.
Proof.
  assert (Forall (fun n => is_constructor_call n = false)
                 (preorder (JavaMethodCall (EVariable Sample.foo) "bar" [])))
    as H1 by (repeat constructor).
  assert (check_types (JavaMethodCall (EVariable Sample.foo) "bar" [])
          = Raise (JavaArgumentCountError
               "Wrong number of arguments for Foo.bar(): expected 1, got 0"))
    as H2 by reflexivity.
  refine (conj H1 (conj H2 _)).
  exact (constructor_free_raises_type_errors _ _ H1 H2).
Defined.

Lemma static_type_failure_witness :
  static_type (JavaMethodCall (EVariable Sample.s) "length2" [])
  = Raise (NoSuchJavaMethod "String has no method named length2")
  /\ ~ valid (JavaMethodCall (EVariable Sample.s) "length2" []).
Proof.
  assert (static_type (JavaMethodCall (EVariable Sample.s) "length2" [])
          = Raise (NoSuchJavaMethod "String has no method named length2"))
    as H1 by reflexivity.
  refine (conj H1 _).
  exact (proj2 (proj2 (static_type_failure _ _ H1))).
Defined.

Lemma mismatch_message_uses_names_witness :
  resolves_to (EVariable Sample.foo) "move" Sample.Foo Sample.move
  /\ length Sample.move_a_2 = length (parameter_types Sample.move)
  /\ first_mismatch Sample.move_a_2 (parameter_types Sample.move) = Some 0
  /\ Forall valid (take 1 Sample.move_a_2)
  /\ check_types (JavaMethodCall (EVariable Sample.foo) "move"
                                 Sample.move_a_2)
     = Raise (JavaTypeMismatchError
                ("Foo.move() expects arguments of type "
                   ++ _names (A := JavaType) [Sample.Int] ++ ", but got "
                   ++ _names (A := JavaType) [Sample.String])).
Proof.
  assert (resolves_to (EVariable Sample.foo) "move" Sample.Foo Sample.move)
    as H1 by (repeat split).
  assert (length Sample.move_a_2 = length (parameter_types Sample.move))
    as H2 by reflexivity.
  assert (first_mismatch Sample.move_a_2 (parameter_types Sample.move)
          = Some 0) as H3 by reflexivity.
  assert (Forall valid (take 1 Sample.move_a_2)) as H4
    by (repeat constructor).
  refine (conj H1 (conj H2 (conj H3 (conj H4 _)))).
  exact (mismatch_message_uses_names _ _ _ _ _ _ H1 H2 H3 H4).
Defined.

Lemma indexed_loop_in_bounds_witness :
  resolves_to (EVariable Sample.foo) "move" Sample.Foo Sample.move
  /\ length Sample.move_1_bad = length (parameter_types Sample.move)
  /\ check_types (JavaMethodCall (EVariable Sample.foo) "move"
                                 Sample.move_1_bad)
     = check_args_indexed check_types "Foo" "move" Sample.move_1_bad
                          (parameter_types Sample.move) 0 2 [] [].
Proof.
  assert (resolves_to (EVariable Sample.foo) "move" Sample.Foo Sample.move)
    as H1 by (repeat split).
  assert (length Sample.move_1_bad = length (parameter_types Sample.move))
    as H2 by reflexivity.
  refine (conj H1 (conj H2 _)).
  exact (proj1 (indexed_loop_in_bounds _ _ _ _ _ H1 H2)).
Defined.

Lemma assignment_to_literal_witness :
  Sample.store_null_assignment !! 1%positive
  = Some (OAssignment 2%positive 3%positive)
  /\ Sample.store_null_assignment !! 2%positive = Some ONullLiteral
  /\ ((exists value, ONullLiteral = OLiteral value Sample.Null
                     /\ "JavaNullLiteral" = "JavaLiteral")
      \/ (ONullLiteral = ONullLiteral /\ Sample.Null = NULL
          /\ "JavaNullLiteral" = "JavaNullLiteral"))
  /\ repr Sample.store_null_assignment 3%positive
          (Sample.lit "5" Sample.Int)
  /\ valid (Sample.lit "5" Sample.Int)
  /\ static_type (Sample.lit "5" Sample.Int) = Ok Sample.Int
  /\ height (Sample.lit "5" Sample.Int) < 1
  /\ check_types_h 2 1%positive Sample.store_null_assignment
     = Some (Sample.store_null_assignment,
             Raise (AttributeError
                      "'JavaNullLiteral' object has no attribute 'name'")).
Proof.
  assert (Sample.store_null_assignment !! 1%positive
          = Some (OAssignment 2%positive 3%positive)) as H1 by reflexivity.
  assert (Sample.store_null_assignment !! 2%positive = Some ONullLiteral)
    as H2 by reflexivity.
  assert ((exists value, ONullLiteral = OLiteral value Sample.Null
                         /\ "JavaNullLiteral" = "JavaLiteral")
          \/ (ONullLiteral = ONullLiteral /\ Sample.Null = NULL
              /\ "JavaNullLiteral" = "JavaNullLiteral")) as H3
    by (right; repeat split).
  assert (repr Sample.store_null_assignment 3%positive
               (Sample.lit "5" Sample.Int)) as H4
    by (apply repr_literal; reflexivity).
  assert (valid (Sample.lit "5" Sample.Int)) as H5 by reflexivity.
  assert (static_type (Sample.lit "5" Sample.Int) = Ok Sample.Int)
    as H6 by reflexivity.
  assert (height (Sample.lit "5" Sample.Int) < 1) as H7 by (cbn; lia).
  refine (conj H1 (conj H2 (conj H3 (conj H4 (conj H5 (conj H6
            (conj H7 _))))))).
  exact (assignment_to_literal _ _ _ _ _ _ _ _ _ _ H1 H2 H3 H4 H5 H6 H7).
Defined.

(** The same with a left-hand side of class [JavaLiteral]: [5 = "a"]. *)
Example assignment_to_plain_literal :
  check_types_h 2 1%positive Sample.store_literal_assignment
  = Some (Sample.store_literal_assignment,
          Raise (AttributeError
                   "'JavaLiteral' object has no attribute 'name'")).
Proof. reflexivity. Qed.

(** A [JavaNullLiteral] object on the right: [s = null] validates, on the
    store, as the tree does. *)
Example null_literal_object_validates :
  let h : gmap addr object :=
    <[1%positive := OAssignment 2%positive 3%positive]>
      (<[2%positive := OVariable "s" Sample.String]>
         (<[3%positive := ONullLiteral]> ∅)) in
  repr h 1%positive (JavaAssignment Sample.s JavaNullLiteral)
  /\ check_types_h 2 1%positive h
     = Some (h, check_types (JavaAssignment Sample.s JavaNullLiteral))
  /\ check_types (JavaAssignment Sample.s JavaNullLiteral) = Ok tt.
Proof.
  cbn zeta. split; [| split; reflexivity].
  eapply repr_assignment.
  - reflexivity.
  - apply repr_variable. reflexivity.
  - apply repr_null_literal. reflexivity.
Qed.
